(** * Permission middleware (src/api/middleware/check-permission.js)

    A shallow embedding of the permission-resolution code: the role table,
    the four helper predicates, [checkUserPermissions] and the two guards
    [checkPermission] and [requireAdmin], followed by the properties of
    the decision procedure. *)

From Stdlib Require Import List String Ascii Bool ZArith Lia.
From Stdlib Require Import DecimalString.
Import ListNotations.
Local Open Scope string_scope.
Local Open Scope list_scope.

(** ** JavaScript values

    The user record comes out of a document store and the code inspects
    it dynamically ([!user.role], [Array.isArray(user.permissions)]), so
    its fields are kept as untyped values.  [VNum] stands for an
    integer-valued number in the range where numbers print in plain
    decimal, [VObj] for a plain data object. *)

Module JS.

#[warnings="-register-all"] Inductive value : Type :=
| VUndefined
| VNull
| VBool (b : bool)
| VNum (z : Z)
| VStr (s : string)
| VArr (elems : list value)
| VObj (fields : list (string * value)).

(** An exception travelling up the call stack. *)
Inductive exn : Type :=
| Error (message : string)
| TypeError (message : string).

Definition message (e : exn) : string :=
  match e with
  | Error m => m
  | TypeError m => m
  end.

(** How the evaluation of a function body ends. *)
Inductive completion (A : Type) : Type :=
| Return (a : A)
| Throw (e : exn).
Arguments Return {A} a.
Arguments Throw {A} e.

Definition bind {A B} (c : completion A) (k : A -> completion B) : completion B :=
  match c with
  | Return a => k a
  | Throw e => Throw e
  end.

(** ToBoolean. *)
Definition truthy (v : value) : bool :=
  match v with
  | VUndefined | VNull => false
  | VBool b => b
  | VNum z => negb (Z.eqb z 0)
  | VStr s => negb (String.eqb s "")
  | VArr _ | VObj _ => true
  end.

(** [a || b] and [a && b] return one of their operands. *)
Definition or_else (a b : value) : value := if truthy a then a else b.
Definition and_then (a b : value) : value := if truthy a then b else a.

Definition isArray (v : value) : bool :=
  match v with
  | VArr _ => true
  | _ => false
  end.

(** [===] on the values met here.  Arrays and objects are equal only to
    themselves; the code never compares one with itself, so two of them
    are unequal. *)
Definition strictEq (a b : value) : bool :=
  match a, b with
  | VUndefined, VUndefined => true
  | VNull, VNull => true
  | VBool x, VBool y => Bool.eqb x y
  | VNum x, VNum y => Z.eqb x y
  | VStr x, VStr y => String.eqb x y
  | _, _ => false
  end.

(** [Array.prototype.includes]; on these values SameValueZero and [===]
    agree. *)
Definition includes (arr : list value) (v : value) : bool :=
  existsb (fun e => strictEq e v) arr.

(** [Array.prototype.every]. *)
Definition every {A} (arr : list A) (p : A -> bool) : bool := forallb p arr.

Definition join (sep : string) (parts : list string) : string :=
  String.concat sep parts.

(** Run [f] over a list from left to right, stopping at the first
    exception. *)
Section Each.
Context {A B : Type} (f : A -> completion B).
Fixpoint each (l : list A) : completion (list B) :=
  match l with
  | [] => Return []
  | x :: rest =>
      bind (f x) (fun y => bind (each rest) (fun ys => Return (y :: ys)))
  end.
End Each.

Definition hasOwn (fields : list (string * value)) (key : string) : bool :=
  existsb (fun field => String.eqb (fst field) key) fields.

(** ToString, as used to turn a value into a property key.  A data
    object holds no functions: with an own [toString] property the
    conversion finds nothing callable that yields a primitive and
    throws; without one, [Object.prototype.toString] answers.  An array
    is joined from the conversions of its elements. *)
Fixpoint toString (v : value) : completion string :=
  match v with
  | VUndefined => Return "undefined"
  | VNull => Return "null"
  | VBool true => Return "true"
  | VBool false => Return "false"
  | VNum z => Return (NilZero.string_of_int (Z.to_int z))
  | VStr s => Return s
  | VArr elems =>
      bind (each (fun e => match e with
                           | VUndefined | VNull => Return ""
                           | _ => toString e
                           end) elems)
           (fun parts => Return (join "," parts))
  | VObj fields =>
      if hasOwn fields "toString"
      then Throw (TypeError "Cannot convert object to primitive value")
      else Return "[object Object]"
  end.

(** The property names every object literal inherits from
    [Object.prototype]. *)
Definition Object_prototype : list string :=
  [ "constructor"; "__defineGetter__"; "__defineSetter__"; "hasOwnProperty";
    "__lookupGetter__"; "__lookupSetter__"; "isPrototypeOf";
    "propertyIsEnumerable"; "toString"; "valueOf"; "__proto__";
    "toLocaleString" ].

Definition inherited (key : string) : bool :=
  existsb (String.eqb key) Object_prototype.

(** What [literal[key]] evaluates to for an object literal whose own
    properties all hold arrays: the own array, a member of
    [Object.prototype] (a function, or the prototype itself), or
    [undefined]. *)
Inductive property : Type :=
| Own (arr : list value)
| Inherited (name : string)
| Absent.

Fixpoint assoc (key : string) (props : list (string * list value)) : option (list value) :=
  match props with
  | [] => None
  | (k, v) :: rest => if String.eqb k key then Some v else assoc key rest
  end.

Definition get (props : list (string * list value)) (key : string) : property :=
  match assoc key props with
  | Some arr => Own arr
  | None => if inherited key then Inherited key else Absent
  end.

End JS.

Import JS.

Notation "x <- c ;; k" := (JS.bind c (fun x => k))
  (at level 61, c at next level, right associativity).

(** ** Static data *)

Module PERMISSIONS.
Definition READ_OWN := "read:own".
Definition UPDATE_OWN := "update:own".
Definition DELETE_OWN := "delete:own".
Definition READ_PRODUCTS := "read:products".
Definition CREATE_PRODUCTS := "create:products".
Definition UPDATE_PRODUCTS := "update:products".
Definition DELETE_PRODUCTS := "delete:products".
Definition READ_ORDERS := "read:orders".
Definition CREATE_ORDERS := "create:orders".
Definition UPDATE_ORDERS := "update:orders".
Definition DELETE_ORDERS := "delete:orders".
Definition READ_ALL := "read:all".
Definition CREATE_ALL := "create:all".
Definition UPDATE_ALL := "update:all".
Definition DELETE_ALL := "delete:all".
Definition ASSIGN_ROLES := "assign:roles".
End PERMISSIONS.

Definition strs (l : list string) : list value := map VStr l.

(** The own properties of the [ROLE_PERMISSIONS] literal. *)
Definition ROLE_PERMISSIONS : list (string * list value) :=
  [ ("user", strs [PERMISSIONS.READ_OWN; PERMISSIONS.UPDATE_OWN]);
    ("moderator", strs [PERMISSIONS.READ_OWN; PERMISSIONS.UPDATE_OWN;
                        PERMISSIONS.READ_PRODUCTS; PERMISSIONS.CREATE_PRODUCTS;
                        PERMISSIONS.UPDATE_PRODUCTS]);
    ("manager", strs [PERMISSIONS.READ_ALL; PERMISSIONS.CREATE_ALL;
                      PERMISSIONS.UPDATE_ALL; PERMISSIONS.READ_ORDERS;
                      PERMISSIONS.UPDATE_ORDERS]);
    ("admin", strs ["*"]);
    ("superadmin", strs ["*"]) ].

Definition ADMIN_ROLES : list value := strs ["admin"; "superadmin"].

(** ** Records read by the middleware *)

(** The store's identifier type; only its [toString()] is used. *)
Record ObjectId := { hex : string }.

Record User := {
  _id : ObjectId;
  email : value;
  role : value;
  permissions : value
}.

(** [req.userData], [req.params] and [req.permissions] of the request. *)
Record UserData := { userId : value }.

Record Params := { params_userId : value; params_id : value }.

Record GrantContext := {
  ctx_id : ObjectId;
  ctx_email : value;
  ctx_role : value;
  granted : list string;
  ctx_resource : value
}.

Record Request := {
  userData : option UserData;
  params : Params;
  req_permissions : option GrantContext
}.

(** ** The helper predicates *)

Definition isAdmin (user : User) : value :=
  and_then (role user) (VBool (includes ADMIN_ROLES (role user))).

Definition resourceId (req : Request) : value :=
  or_else (params_userId (params req)) (params_id (params req)).

Definition hasResourceOwnership (user : User) (req : Request) : value :=
  and_then (resourceId req)
           (VBool (strictEq (resourceId req) (VStr (hex (_id user))))).

Definition hasExplicitPermissions (user : User) (requiredPermissions : list string) : bool :=
  if negb (truthy (permissions user)) || negb (isArray (permissions user)) then false
  else
    match permissions user with
    | VArr granted =>
        every requiredPermissions (fun permission => includes granted (VStr permission))
    | _ => false
    end.

(** [ROLE_PERMISSIONS[user.role] || []]: the role is first converted to
    a property key, which can throw; the lookup then gives an own
    array, a truthy member of [Object.prototype], or the empty array. *)
Definition rolePermissions (user : User) : completion property :=
  key <- toString (role user) ;;
  Return (match get ROLE_PERMISSIONS key with
          | Absent => Own []
          | found => found
          end).

(** Calling [includes] on anything but the table's arrays is a
    [TypeError]: neither a function nor [Object.prototype] has it. *)
Definition hasRolePermissions (user : User) (requiredPermissions : list string)
  : completion bool :=
  if negb (truthy (role user)) then Return false
  else
    found <- rolePermissions user ;;
    match found with
    | Own granted =>
        if includes granted (VStr "*") then Return true
        else Return (every requiredPermissions
                           (fun permission => includes granted (VStr permission)))
    | _ => Throw (TypeError "rolePermissions.includes is not a function")
    end.

(** ** The evaluator *)

(** The options object built by [checkPermission]: [resource] is the
    given label or [null], [allowOwner] the documented boolean. *)
Record CheckOptions := {
  resource : value;
  allowOwner : bool;
  req : Request
}.

(** The condition of the second [if]:
    [allowOwner && resource === 'own' && hasResourceOwnership(user, req)]. *)
Definition ownerBypass (user : User) (options : CheckOptions) : bool :=
  allowOwner options && strictEq (resource options) (VStr "own")
  && truthy (hasResourceOwnership user (req options)).

Definition checkUserPermissions (user : User) (requiredPermissions : list string)
           (options : CheckOptions) : completion bool :=
  if truthy (isAdmin user) then Return true
  else if ownerBypass user options then Return true
  else if hasExplicitPermissions user requiredPermissions then Return true
  else
    byRole <- hasRolePermissions user requiredPermissions ;;
    if (byRole : bool) then Return true else Return false.

(** ** The evaluator with its helper calls observed

    The same body, run in a monad that records every helper invocation
    in program order together with what the helper returned.  The [&&]
    chain of the ownership test reaches [hasResourceOwnership] only when
    the two operands before it are true. *)

Module Trace.

Inductive helper : Type :=
| IsAdmin
| HasResourceOwnership
| HasExplicitPermissions
| HasRolePermissions.

Record call := { callee : helper; result : completion bool }.

Definition traced (A : Type) : Type := (list call * completion A)%type.

Definition ret {A} (a : A) : traced A := ([], Return a).

Definition bind {A B} (m : traced A) (k : A -> traced B) : traced B :=
  match m with
  | (t, Return a) => let (t', r) := k a in (t ++ t', r)
  | (t, Throw e) => (t, Throw e)
  end.

(** Invoke helper [h]; [r] is how its body completes, as a truth value. *)
Definition invoke (h : helper) (r : completion bool) : traced bool :=
  ([{| callee := h; result := r |}], r).

Definition helper_eqb (a b : helper) : bool :=
  match a, b with
  | IsAdmin, IsAdmin
  | HasResourceOwnership, HasResourceOwnership
  | HasExplicitPermissions, HasExplicitPermissions
  | HasRolePermissions, HasRolePermissions => true
  | _, _ => false
  end.

Definition called (h : helper) (t : list call) : bool :=
  existsb (fun c => helper_eqb (callee c) h) t.

End Trace.

Notation "x <~ c ;; k" := (Trace.bind c (fun x => k))
  (at level 61, c at next level, right associativity).

Definition checkUserPermissions_traced (user : User) (requiredPermissions : list string)
           (options : CheckOptions) : Trace.traced bool :=
  admin <~ Trace.invoke Trace.IsAdmin (Return (truthy (isAdmin user))) ;;
  if (admin : bool) then Trace.ret true
  else
    owner <~ (if allowOwner options && strictEq (resource options) (VStr "own")
              then Trace.invoke Trace.HasResourceOwnership
                     (Return (truthy (hasResourceOwnership user (req options))))
              else Trace.ret false) ;;
    if (owner : bool) then Trace.ret true
    else
      explicit <~ Trace.invoke Trace.HasExplicitPermissions
                    (Return (hasExplicitPermissions user requiredPermissions)) ;;
      if (explicit : bool) then Trace.ret true
      else
        byRole <~ Trace.invoke Trace.HasRolePermissions
                    (hasRolePermissions user requiredPermissions) ;;
        if (byRole : bool) then Trace.ret true else Trace.ret false.

(** ** The guards *)

Inductive PermissionInput : Type :=
| Single (permission : string)
| Several (permissions : list string).

Definition normalizePermissions (permissions : PermissionInput) : list string :=
  match permissions with
  | Several l => l
  | Single p => [p]
  end.

(** The [options] argument of the factory; an omitted property is
    [VUndefined] resp. [None] and takes its destructuring default. *)
Record Options := {
  opt_resource : value;
  opt_allowOwner : option bool
}.

Definition no_options : Options :=
  {| opt_resource := VUndefined; opt_allowOwner := None |}.

(** What a guard does with a request: answer it, or hand it on with
    [req.permissions] as the guard left it. *)
Inductive Signal : Type :=
| Json (status : Z) (body : list (string * value))
| Next (attached : option GrantContext).

Definition validateAuthentication (req : Request) : option (list (string * value)) :=
  match userData req with
  | None => Some [("message", VStr "Authentication required")]
  | Some data =>
      if negb (truthy (userId data))
      then Some [("message", VStr "Authentication required")]
      else None
  end.

Definition attachPermissionContext (user : User) (permissions : list string)
           (resource : value) : GrantContext :=
  {| ctx_id := _id user;
     ctx_email := email user;
     ctx_role := role user;
     granted := permissions;
     ctx_resource := or_else resource (VStr "general") |}.

Section Guards.

(** [User.findById]: resolves to a record or to [null], or rejects. *)
Variable findById : value -> completion (option User).

(** [process.env.NODE_ENV]. *)
Variable NODE_ENV : value.

Definition getUserById (userId : value) : completion (option User) :=
  match findById userId with
  | Return found => Return found
  | Throw e => Throw (Error ("Failed to fetch user: " ++ message e))
  end.

Definition internalError (e : exn) : Signal :=
  Json 500 [("message", VStr "Permission check failed");
            ("error", if strictEq NODE_ENV (VStr "development")
                      then VStr (message e)
                      else VStr "Internal server error")].

Definition checkPermission (requiredPermissions : PermissionInput)
           (options : Options) (req : Request) : Signal :=
  let resource := match opt_resource options with
                  | VUndefined => VNull
                  | given => given
                  end in
  let allowOwner := match opt_allowOwner options with
                    | None => false
                    | Some given => given
                    end in
  let attempt : completion Signal :=
    match validateAuthentication req with
    | Some authError => Return (Json 401 authError)
    | None =>
        user <- getUserById (match userData req with
                             | Some data => userId data
                             | None => VUndefined
                             end) ;;
        match user with
        | None => Return (Json 401 [("message", VStr "User not found")])
        | Some user =>
            let permissions := normalizePermissions requiredPermissions in
            hasPermission <- checkUserPermissions user permissions
                               {| resource := resource;
                                  allowOwner := allowOwner;
                                  req := req |} ;;
            if negb hasPermission
            then Return (Json 403 [("message", VStr "Insufficient permissions");
                                   ("required", VArr (strs permissions));
                                   ("resource", or_else resource (VStr "general"))])
            else Return (Next (Some (attachPermissionContext user permissions resource)))
        end
    end in
  match attempt with
  | Return signal => signal
  | Throw error => internalError error
  end.

Definition requirePermissions (permissions : PermissionInput) (options : Options)
  : Request -> Signal :=
  checkPermission permissions options.

Definition requireOwnershipOrPermissions (permissions : PermissionInput)
  : Request -> Signal :=
  checkPermission permissions
    {| opt_resource := VStr "own"; opt_allowOwner := Some true |}.

Definition requireAdmin (req : Request) : Signal :=
  match userData req with
  | None => Json 401 [("message", VStr "Authentication required")]
  | Some data =>
      if negb (truthy (userId data))
      then Json 401 [("message", VStr "Authentication required")]
      else
        match findById (userId data) with
        | Return user =>
            if match user with
               | None => true
               | Some user => negb (truthy (isAdmin user))
               end
            then Json 403 [("message", VStr "Admin access required")]
            else Next (req_permissions req)
        | Throw error => internalError error
        end
  end.

End Guards.

(** * Properties *)

(** ** Facts about the value layer *)

Lemma strictEq_VStr (v : value) (s : string) :
  strictEq v (VStr s) = true <-> v = VStr s.
Proof.
  destruct v; simpl; split; intro H; try discriminate.
  - apply String.eqb_eq in H. now subst.
  - injection H as ->. apply String.eqb_refl.
Qed.

Lemma includes_VStr (arr : list value) (s : string) :
  includes arr (VStr s) = true <-> In (VStr s) arr.
Proof.
  unfold includes. rewrite existsb_exists. split.
  - intros (e & Hin & Heq). apply strictEq_VStr in Heq. now subst.
  - intro Hin. exists (VStr s). split; [assumption | now apply strictEq_VStr].
Qed.

Lemma includes_VStr_false (arr : list value) (s : string) :
  includes arr (VStr s) = false <-> ~ In (VStr s) arr.
Proof.
  rewrite <- includes_VStr. destruct (includes arr (VStr s)); split; intro H;
    try reflexivity; try discriminate; try (intro; discriminate).
  now contradiction H.
Qed.

Lemma every_spec {A} (arr : list A) (p : A -> bool) :
  every arr p = true <-> forall x, In x arr -> p x = true.
Proof. apply forallb_forall. Qed.

Lemma every_missing {A} (arr : list A) (p : A -> bool) (x : A) :
  In x arr -> p x = false -> every arr p = false.
Proof.
  intros Hin Hp. destruct (every arr p) eqn:E; [| reflexivity].
  rewrite every_spec in E. rewrite (E x Hin) in Hp. discriminate.
Qed.

Lemma truthy_VStr (s : string) : truthy (VStr s) = true <-> s <> "".
Proof.
  simpl. rewrite negb_true_iff. apply String.eqb_neq.
Qed.

(** ** Facts about the helpers *)

Lemma isAdmin_string (user : User) (r : string) :
  role user = VStr r ->
  truthy (isAdmin user) = true <-> r = "admin" \/ r = "superadmin".
Proof.
  intro Hr. unfold isAdmin, and_then. rewrite Hr.
  destruct (truthy (VStr r)) eqn:Ht.
  - unfold ADMIN_ROLES, strs, includes.
    cbn [map existsb strictEq truthy].
    rewrite !orb_true_iff, !String.eqb_eq.
    intuition (subst; auto; discriminate).
  - rewrite Ht. apply not_true_iff_false in Ht. rewrite truthy_VStr in Ht.
    split; [discriminate |].
    intros [-> | ->]; exfalso; apply Ht; intro; discriminate.
Qed.

Lemma hasExplicitPermissions_array (user : User) (required : list string) :
  hasExplicitPermissions user required = true <->
  exists granted, permissions user = VArr granted /\
                  forall p, In p required -> In (VStr p) granted.
Proof.
  unfold hasExplicitPermissions.
  destruct (permissions user) as [| | b | z | s | granted | fields];
    cbn [isArray truthy negb orb]; rewrite ?orb_true_r;
    try (split; [discriminate | intros (g & Hg & _); discriminate]).
  - rewrite every_spec. split.
    + intro H. exists granted. split; [reflexivity |].
      intros p Hp. now apply includes_VStr, H.
    + intros (g & Hg & H) p Hp. injection Hg as <-. now apply includes_VStr, H.
Qed.

Lemma hasExplicitPermissions_malformed (user : User) (required : list string) :
  isArray (permissions user) = false ->
  hasExplicitPermissions user required = false.
Proof.
  intro H. unfold hasExplicitPermissions. rewrite H.
  now rewrite orb_true_r.
Qed.

Lemma traced_result (user : User) (required : list string) (options : CheckOptions) :
  snd (checkUserPermissions_traced user required options)
  = checkUserPermissions user required options.
Proof.
  unfold checkUserPermissions_traced, checkUserPermissions, ownerBypass.
  simpl. destruct (truthy (isAdmin user)); [reflexivity |].
  destruct (allowOwner options && strictEq (resource options) (VStr "own")); simpl.
  - destruct (truthy (hasResourceOwnership user (req options))); [reflexivity |]. simpl.
    destruct (hasExplicitPermissions user required); [reflexivity |]. simpl.
    destruct (hasRolePermissions user required) as [[|] | e]; reflexivity.
  - destruct (hasExplicitPermissions user required); [reflexivity |]. simpl.
    destruct (hasRolePermissions user required) as [[|] | e]; reflexivity.
Qed.

(** ** Sample data used to evaluate the code *)

Definition sampleId : ObjectId := {| hex := "64b7f0c2a1d3e4f5a6b7c8d9" |}.

Definition userWith (r p : value) : User :=
  {| _id := sampleId; email := VStr "ada@example.org"; role := r; permissions := p |}.

Definition requestFor (authenticated target : value) : Request :=
  {| userData := Some {| userId := authenticated |};
     params := {| params_userId := target; params_id := VUndefined |};
     req_permissions := None |}.

Definition plainCheck (r : Request) : CheckOptions :=
  {| resource := VNull; allowOwner := false; req := r |}.

Definition ownCheck (r : Request) : CheckOptions :=
  {| resource := VStr "own"; allowOwner := true; req := r |}.

(** ** Admin bypass *)

(** C1. A caller whose role is [admin] or [superadmin] is allowed for
    every requirement set and all options, and the only helper that runs
    is [isAdmin]: ownership, explicit grants and the role table are not
    consulted. *)
Theorem admin_always_allowed (user : User) (required : list string)
        (options : CheckOptions) :
  role user = VStr "admin" \/ role user = VStr "superadmin" ->
  checkUserPermissions user required options = Return true /\
  checkUserPermissions_traced user required options
  = ([{| Trace.callee := Trace.IsAdmin; Trace.result := Return true |}], Return true).
Proof.
  intro Hrole.
  assert (Hadmin : truthy (isAdmin user) = true).
  { destruct Hrole as [H | H]; apply (isAdmin_string user _ H); auto. }
  unfold checkUserPermissions, checkUserPermissions_traced.
  rewrite Hadmin. split; reflexivity.
Qed.

Lemma admin_always_allowed_witness :
  checkUserPermissions (userWith (VStr "superadmin") VUndefined)
                       [PERMISSIONS.DELETE_ALL; PERMISSIONS.ASSIGN_ROLES]
                       (ownCheck (requestFor (VStr "1") (VStr "2")))
  = Return true.
Proof.
  apply (admin_always_allowed (userWith (VStr "superadmin") VUndefined)).
  right. reflexivity.
Defined.

(** ** Order of the checks *)

(** The helper calls the body can make, in program order; the ownership
    resolver is on the path only behind its two-operand gate. *)
Definition plan (options : CheckOptions) : list Trace.helper :=
  [Trace.IsAdmin]
  ++ (if allowOwner options && strictEq (resource options) (VStr "own")
      then [Trace.HasResourceOwnership] else [])
  ++ [Trace.HasExplicitPermissions; Trace.HasRolePermissions].

(** No call follows a call that returned true. *)
Fixpoint stopsAtSuccess (t : list Trace.call) : Prop :=
  match t with
  | [] => True
  | c :: rest =>
      (Trace.result c = Return true -> rest = []) /\ stopsAtSuccess rest
  end.

Lemma stopsAtSuccess_split (t pre post : list Trace.call) (c : Trace.call) :
  stopsAtSuccess t -> t = pre ++ c :: post ->
  Trace.result c = Return true -> post = [].
Proof.
  revert t. induction pre as [| d pre IH]; intros t Hs -> Hc.
  - simpl in Hs. now apply Hs.
  - simpl in Hs. destruct Hs as [_ Hs]. now apply (IH _ Hs eq_refl).
Qed.

Lemma ends_with_rev {A} (P : A -> Prop) (t : list A) :
  (exists pre c, t = pre ++ [c] /\ P c) <->
  match rev t with
  | c :: _ => P c
  | [] => False
  end.
Proof.
  split.
  - intros (pre & c & -> & Hc). now rewrite rev_app_distr.
  - destruct (rev t) as [| c rest] eqn:E; [tauto |]. intro Hc.
    exists (rev rest), c. split; [| assumption].
    rewrite <- (rev_involutive t), E. reflexivity.
Qed.

(** Every way the four conditions and the role lookup can come out. *)
Ltac case_checks user required options :=
  unfold checkUserPermissions_traced, plan; simpl;
  destruct (truthy (isAdmin user)); simpl;
  destruct (allowOwner options && strictEq (resource options) (VStr "own")); simpl;
  destruct (truthy (hasResourceOwnership user (req options))); simpl;
  destruct (hasExplicitPermissions user required); simpl;
  destruct (hasRolePermissions user required) as [[|] | e]; simpl.

(** What helper [h] returns for this caller, requirement and options,
    as the truth value its [if] tests. *)
Definition returned (user : User) (required : list string) (options : CheckOptions)
           (h : Trace.helper) : completion bool :=
  match h with
  | Trace.IsAdmin => Return (truthy (isAdmin user))
  | Trace.HasResourceOwnership =>
      Return (truthy (hasResourceOwnership user (req options)))
  | Trace.HasExplicitPermissions => Return (hasExplicitPermissions user required)
  | Trace.HasRolePermissions => hasRolePermissions user required
  end.

(** C2. The evaluator runs its checks in the fixed order admin,
    ownership, explicit grants, role grants, and stops at the first
    that succeeds.  The observed run ends in the verdict of
    [checkUserPermissions]; the helpers called are an initial segment
    of that sequence and each is recorded with what it returns on this
    input; nothing is called after a helper has returned true; the
    verdict is allow exactly when the last helper called returned true,
    deny exactly when the whole sequence ran and every helper returned
    false, and an exception exactly when the last helper called threw
    it. *)
Theorem checks_in_order_short_circuit (user : User) (required : list string)
        (options : CheckOptions) :
  let t := fst (checkUserPermissions_traced user required options) in
  let verdict := checkUserPermissions user required options in
  snd (checkUserPermissions_traced user required options) = verdict /\
  (exists n, map Trace.callee t = firstn n (plan options)) /\
  Forall (fun c => Trace.result c
                   = returned user required options (Trace.callee c)) t /\
  (forall pre c post, t = pre ++ c :: post ->
                      Trace.result c = Return true -> post = []) /\
  (verdict = Return true <->
   exists pre c, t = pre ++ [c] /\ Trace.result c = Return true) /\
  (verdict = Return false <->
   map Trace.callee t = plan options /\
   Forall (fun c => Trace.result c = Return false) t) /\
  (forall e, verdict = Throw e <->
             exists pre c, t = pre ++ [c] /\ Trace.result c = Throw e).
Proof.
  cbv zeta. rewrite <- traced_result.
  split; [reflexivity |]. split; [| split; [| split; [| split; [| split]]]].
  - case_checks user required options;
      first [now exists 1 | now exists 2 | now exists 3 | now exists 4].
  - unfold returned.
    destruct (hasRolePermissions user required) as [[|] | e] eqn:Hrole;
      unfold checkUserPermissions_traced; rewrite Hrole; simpl;
      destruct (truthy (isAdmin user)) eqn:Hadmin; simpl;
      destruct (allowOwner options && strictEq (resource options) (VStr "own")); simpl;
      destruct (truthy (hasResourceOwnership user (req options))) eqn:Howner; simpl;
      destruct (hasExplicitPermissions user required) eqn:Hexplicit; simpl;
      repeat constructor; simpl; congruence.
  - intros pre c post. apply stopsAtSuccess_split.
    case_checks user required options; intuition discriminate.
  - rewrite ends_with_rev.
    case_checks user required options; intuition discriminate.
  - case_checks user required options;
      rewrite ?Forall_cons_iff, ?Forall_nil_iff; simpl;
      intuition (discriminate || auto).
  - intro failure. rewrite ends_with_rev.
    case_checks user required options; try (intuition discriminate).
    all: split; intro H; injection H as <-; reflexivity.
Qed.

(** ** Conjunctive requirements *)

Lemma hasRolePermissions_own (user : User) (required : list string)
      (granted : list value) :
  rolePermissions user = Return (Own granted) ->
  ~ In (VStr "*") granted ->
  hasRolePermissions user required
  = Return (truthy (role user)
            && every required (fun p => includes granted (VStr p))).
Proof.
  intros Hown Hstar. unfold hasRolePermissions. rewrite Hown. cbn [JS.bind].
  apply includes_VStr_false in Hstar. rewrite Hstar.
  now destruct (truthy (role user)).
Qed.

(** C3. Both grant steps are conjunctive.  For a requirement set that
    contains [p]: the explicit step returns true only if the explicit
    permissions are an array holding every required permission, and
    returns false if [p] is missing from it; the role step, when the
    role's array has no wildcard, returns true only if that array holds
    every required permission, and returns false if [p] is missing. *)
Theorem grants_are_conjunctive (user : User) (required : list string) (p : string) :
  In p required ->
  (hasExplicitPermissions user required = true ->
   exists granted, permissions user = VArr granted /\
                   forall q, In q required -> In (VStr q) granted) /\
  ((forall granted, permissions user = VArr granted -> ~ In (VStr p) granted) ->
   hasExplicitPermissions user required = false) /\
  (forall granted,
      rolePermissions user = Return (Own granted) -> ~ In (VStr "*") granted ->
      (hasRolePermissions user required = Return true ->
       forall q, In q required -> In (VStr q) granted) /\
      (~ In (VStr p) granted ->
       hasRolePermissions user required = Return false)).
Proof.
  intro Hp. split; [| split].
  - apply hasExplicitPermissions_array.
  - intro Hmiss.
    destruct (hasExplicitPermissions user required) eqn:E; [| reflexivity].
    apply hasExplicitPermissions_array in E. destruct E as (g & Hg & Hall).
    exfalso. exact (Hmiss g Hg (Hall p Hp)).
  - intros granted Hown Hstar.
    rewrite (hasRolePermissions_own user required granted Hown Hstar). split.
    + intros H q Hq. injection H as H. apply andb_true_iff in H.
      destruct H as [_ H]. rewrite every_spec in H.
      now apply includes_VStr, H.
    + intro Hmiss. apply includes_VStr_false in Hmiss.
      rewrite (every_missing required _ p Hp Hmiss).
      now rewrite andb_false_r.
Qed.

Lemma grants_are_conjunctive_witness :
  let user := userWith (VStr "moderator")
                       (VArr (strs [PERMISSIONS.READ_PRODUCTS; PERMISSIONS.CREATE_PRODUCTS])) in
  let required := [PERMISSIONS.READ_PRODUCTS; PERMISSIONS.DELETE_PRODUCTS] in
  hasExplicitPermissions user required = false /\
  hasRolePermissions user required = Return false.
Proof.
  cbv zeta.
  pose proof (grants_are_conjunctive
                (userWith (VStr "moderator")
                          (VArr (strs [PERMISSIONS.READ_PRODUCTS; PERMISSIONS.CREATE_PRODUCTS])))
                [PERMISSIONS.READ_PRODUCTS; PERMISSIONS.DELETE_PRODUCTS]
                PERMISSIONS.DELETE_PRODUCTS
                (or_intror (or_introl eq_refl))) as (_ & Hexplicit & Hrole).
  split.
  - apply Hexplicit. intros granted Hg. injection Hg as <-.
    apply includes_VStr_false. reflexivity.
  - refine (proj2 (Hrole _ eq_refl _) _); apply includes_VStr_false; reflexivity.
Defined.

(** ** Ownership bypass *)

Lemma hasResourceOwnership_true (user : User) (r : Request) :
  truthy (hasResourceOwnership user r) = true <->
  truthy (resourceId r) = true /\ resourceId r = VStr (hex (_id user)).
Proof.
  unfold hasResourceOwnership, and_then.
  destruct (truthy (resourceId r)) eqn:Ht.
  - simpl. rewrite strictEq_VStr. tauto.
  - rewrite Ht. split; [discriminate | intros [H _]; discriminate].
Qed.

(** C4. With [{resource: "own", allowOwner: true}] a caller who is not
    an admin and whose identifier is the request's target identifier is
    allowed whatever the requirement set, the empty one included.  When
    the target identifier is absent or differs, the verdict is the one
    of the explicit-grants check followed by the role-grants check, and
    the explicit-grants helper is called.  [hasResourceOwnership] is
    called only when [allowOwner] is true and [resource] is ["own"]. *)
Theorem ownership_bypass (user : User) (required : list string)
        (options : CheckOptions) :
  (truthy (isAdmin user) = false ->
   allowOwner options = true -> resource options = VStr "own" ->
   truthy (resourceId (req options)) = true ->
   resourceId (req options) = VStr (hex (_id user)) ->
   checkUserPermissions user required options = Return true /\
   checkUserPermissions user [] options = Return true) /\
  (truthy (isAdmin user) = false ->
   truthy (resourceId (req options)) = false \/
   resourceId (req options) <> VStr (hex (_id user)) ->
   checkUserPermissions user required options
   = (if hasExplicitPermissions user required then Return true
      else hasRolePermissions user required) /\
   Trace.called Trace.HasExplicitPermissions
                (fst (checkUserPermissions_traced user required options)) = true) /\
  (Trace.called Trace.HasResourceOwnership
                (fst (checkUserPermissions_traced user required options)) = true ->
   allowOwner options = true /\ resource options = VStr "own").
Proof.
  split; [| split].
  - intros Hadmin Hallow Hres Hpresent Hsame.
    assert (Hown : ownerBypass user options = true).
    { unfold ownerBypass. rewrite Hallow, Hres. simpl.
      apply hasResourceOwnership_true. now split. }
    unfold checkUserPermissions. now rewrite Hadmin, Hown.
  - intros Hadmin Hother.
    assert (Hown : truthy (hasResourceOwnership user (req options)) = false).
    { apply not_true_iff_false. rewrite hasResourceOwnership_true.
      intros [Ht Hs]. destruct Hother as [H | H]; [congruence | contradiction]. }
    unfold checkUserPermissions, checkUserPermissions_traced, ownerBypass.
    rewrite Hadmin, Hown, andb_false_r. simpl.
    destruct (allowOwner options && strictEq (resource options) (VStr "own")); simpl;
      rewrite ?Hown; simpl;
      destruct (hasExplicitPermissions user required); simpl;
      destruct (hasRolePermissions user required) as [[|] | e]; split; reflexivity.
  - rewrite <- (strictEq_VStr (resource options) "own"), <- andb_true_iff.
    case_checks user required options; intro H; try reflexivity; discriminate.
Qed.

Lemma ownership_bypass_witness :
  let user := userWith (VStr "user") VUndefined in
  checkUserPermissions user [] (ownCheck (requestFor (VStr "7") (VStr (hex sampleId))))
  = Return true /\
  checkUserPermissions user [PERMISSIONS.READ_OWN]
                       (ownCheck (requestFor (VStr "7") (VStr "someone-else")))
  = Return true /\
  checkUserPermissions user [PERMISSIONS.DELETE_OWN]
                       (ownCheck (requestFor (VStr "7") VUndefined))
  = Return false /\
  (allowOwner (ownCheck (requestFor (VStr "7") VUndefined)) = true /\
   resource (ownCheck (requestFor (VStr "7") VUndefined)) = VStr "own").
Proof.
  cbv zeta. split; [| split; [| split]]; cycle 3.
  - apply (proj2 (proj2 (ownership_bypass (userWith (VStr "user") VUndefined)
                           [PERMISSIONS.DELETE_OWN]
                           (ownCheck (requestFor (VStr "7") VUndefined))))).
    reflexivity.
  - apply (proj1 (ownership_bypass (userWith (VStr "user") VUndefined) []
                    (ownCheck (requestFor (VStr "7") (VStr (hex sampleId))))));
      reflexivity.
  - refine (eq_trans
              (proj1 (proj1 (proj2 (ownership_bypass (userWith (VStr "user") VUndefined)
                                      [PERMISSIONS.READ_OWN]
                                      (ownCheck (requestFor (VStr "7") (VStr "someone-else")))))
                            eq_refl _)) eq_refl).
    right. discriminate.
  - refine (eq_trans
              (proj1 (proj1 (proj2 (ownership_bypass (userWith (VStr "user") VUndefined)
                                      [PERMISSIONS.DELETE_OWN]
                                      (ownCheck (requestFor (VStr "7") VUndefined))))
                            eq_refl _)) eq_refl).
    left. reflexivity.
Defined.

(** ** Explicit grants and the role table *)

Lemma role_user_not_admin (user : User) :
  role user = VStr "user" -> truthy (isAdmin user) = false.
Proof.
  intro Hr. apply not_true_iff_false. rewrite (isAdmin_string user "user" Hr).
  intros [H | H]; discriminate.
Qed.



(** ** Roles outside the table *)

Lemma unknown_role_lookup (user : User) (r : string) :
  role user = VStr r -> assoc r ROLE_PERMISSIONS = None -> inherited r = false ->
  rolePermissions user = Return (Own []).
Proof.
  intros Hr Hassoc Hinh. unfold rolePermissions, get. rewrite Hr.
  cbn [toString JS.bind]. now rewrite Hassoc, Hinh.
Qed.

Lemma unknown_role_not_admin (user : User) (r : string) :
  role user = VStr r -> assoc r ROLE_PERMISSIONS = None ->
  truthy (isAdmin user) = false.
Proof.
  intros Hr Hassoc. apply not_true_iff_false. rewrite (isAdmin_string user r Hr).
  intros [-> | ->]; discriminate.
Qed.

Definition guestWithGrant : User :=
  userWith (VStr "guest") (VArr (strs [PERMISSIONS.READ_OWN])).

Definition guestWithoutGrants : User := userWith (VStr "guest") VUndefined.

(** A role that is not a key of the table, a caller who is no admin and
    gets no ownership bypass, and yet the verdict is allow: once through
    an explicit grant, once because nothing is required. *)
Lemma unknown_role_still_allowed :
  assoc "guest" ROLE_PERMISSIONS = None /\
  truthy (isAdmin guestWithGrant) = false /\
  ownerBypass guestWithGrant (plainCheck (requestFor (VStr "7") VUndefined)) = false /\
  checkUserPermissions guestWithGrant [PERMISSIONS.READ_OWN]
                       (plainCheck (requestFor (VStr "7") VUndefined))
  = Return true /\
  checkUserPermissions guestWithoutGrants []
                       (plainCheck (requestFor (VStr "7") VUndefined))
  = Return true.
Proof. repeat split. Qed.

(** C6, amended. For a caller whose role is a string that is neither a
    key of the role table nor a property name of [Object.prototype]:
    the lookup yields the empty array and the caller is no admin; the
    role step returns true only for the empty requirement set; and
    without the ownership bypass the verdict is deny whenever the
    requirement set is not empty and the explicit step does not pass. *)
Theorem unknown_role_denied (user : User) (required : list string)
        (options : CheckOptions) (r : string) :
  role user = VStr r ->
  assoc r ROLE_PERMISSIONS = None ->
  inherited r = false ->
  rolePermissions user = Return (Own []) /\
  truthy (isAdmin user) = false /\
  (hasRolePermissions user required = Return true -> required = []) /\
  (ownerBypass user options = false ->
   hasExplicitPermissions user required = false ->
   required <> [] ->
   checkUserPermissions user required options = Return false).
Proof.
  intros Hr Hassoc Hinh.
  pose proof (unknown_role_lookup user r Hr Hassoc Hinh) as Hlookup.
  pose proof (unknown_role_not_admin user r Hr Hassoc) as Hadmin.
  assert (Hrole : hasRolePermissions user required
                  = Return (truthy (role user)
                            && match required with [] => true | _ => false end)).
  { rewrite (hasRolePermissions_own user required [] Hlookup (fun H => H)).
    now destruct required. }
  repeat split; try assumption.
  - rewrite Hrole. destruct required; [reflexivity |].
    rewrite andb_false_r. discriminate.
  - intros Hown Hexplicit Hne. unfold checkUserPermissions.
    rewrite Hadmin, Hown, Hexplicit, Hrole.
    destruct required; [contradiction |]. now rewrite andb_false_r.
Qed.

Lemma unknown_role_denied_witness :
  checkUserPermissions guestWithoutGrants [PERMISSIONS.READ_OWN]
                       (plainCheck (requestFor (VStr "7") VUndefined))
  = Return false.
Proof.
  apply (unknown_role_denied guestWithoutGrants [PERMISSIONS.READ_OWN]
           (plainCheck (requestFor (VStr "7") VUndefined)) "guest");
    try reflexivity.
  discriminate.
Defined.

(** ** The [user] role and [create:products] *)

Definition userGrantedCreate : User :=
  userWith (VStr "user") (VArr (strs [PERMISSIONS.CREATE_PRODUCTS])).

(** A caller with role [user], no ownership bypass, requiring
    [create:products], and the verdict is allow: the explicit grant
    passes before the role table is looked at. *)
Lemma user_role_create_allowed :
  role userGrantedCreate = VStr "user" /\
  truthy (isAdmin userGrantedCreate) = false /\
  ownerBypass userGrantedCreate (plainCheck (requestFor (VStr "7") VUndefined)) = false /\
  checkUserPermissions userGrantedCreate [PERMISSIONS.CREATE_PRODUCTS]
                       (plainCheck (requestFor (VStr "7") VUndefined))
  = Return true.
Proof. repeat split. Qed.

(** C7, amended. A caller with role [user] whose explicit permissions
    are not an array holding [create:products], and who gets no
    ownership bypass, is denied when [create:products] is required; the
    table's entry for [user] is exactly [read:own], [update:own]. *)
Theorem user_role_create_denied (user : User) (options : CheckOptions) :
  role user = VStr "user" ->
  ownerBypass user options = false ->
  (forall granted, permissions user = VArr granted ->
                   ~ In (VStr PERMISSIONS.CREATE_PRODUCTS) granted) ->
  checkUserPermissions user [PERMISSIONS.CREATE_PRODUCTS] options = Return false /\
  rolePermissions user
  = Return (Own (strs [PERMISSIONS.READ_OWN; PERMISSIONS.UPDATE_OWN])).
Proof.
  intros Hrole Hown Hmiss.
  assert (Hlookup : rolePermissions user
                    = Return (Own (strs [PERMISSIONS.READ_OWN; PERMISSIONS.UPDATE_OWN]))).
  { unfold rolePermissions. rewrite Hrole. reflexivity. }
  split; [| assumption].
  assert (Hexplicit : hasExplicitPermissions user [PERMISSIONS.CREATE_PRODUCTS] = false).
  { apply not_true_iff_false. rewrite hasExplicitPermissions_array.
    intros (granted & Hg & Hall). apply (Hmiss granted Hg), Hall. now left. }
  unfold checkUserPermissions.
  rewrite (role_user_not_admin user Hrole), Hown, Hexplicit.
  unfold hasRolePermissions. rewrite Hlookup, Hrole. reflexivity.
Qed.

Lemma user_role_create_denied_witness :
  checkUserPermissions (userWith (VStr "user") (VArr (strs [PERMISSIONS.READ_PRODUCTS])))
                       [PERMISSIONS.CREATE_PRODUCTS]
                       (plainCheck (requestFor (VStr "7") VUndefined))
  = Return false.
Proof.
  apply (user_role_create_denied
           (userWith (VStr "user") (VArr (strs [PERMISSIONS.READ_PRODUCTS])))
           (plainCheck (requestFor (VStr "7") VUndefined))).
  - reflexivity.
  - reflexivity.
  - intros granted Hg. injection Hg as <-. apply includes_VStr_false. reflexivity.
Defined.

(** ** Totality of the evaluator *)

(** Explicit permissions that are absent or not an array make the
    explicit step return false; the verdict is then the role step's. *)
Lemma malformed_permissions_fall_through (user : User) (required : list string)
      (options : CheckOptions) :
  isArray (permissions user) = false ->
  hasExplicitPermissions user required = false /\
  (truthy (isAdmin user) = false -> ownerBypass user options = false ->
   checkUserPermissions user required options = hasRolePermissions user required).
Proof.
  intro Hmal.
  pose proof (hasExplicitPermissions_malformed user required Hmal) as Hexplicit.
  split; [assumption |]. intros Hadmin Hown.
  unfold checkUserPermissions. rewrite Hadmin, Hown, Hexplicit.
  now destruct (hasRolePermissions user required) as [[|] | e].
Qed.

(** When the role converts to a key that is not a property name of
    [Object.prototype], the evaluator returns a verdict. *)
Lemma evaluator_returns (user : User) (required : list string)
      (options : CheckOptions) (key : string) :
  toString (role user) = Return key ->
  inherited key = false ->
  exists verdict, checkUserPermissions user required options = Return verdict.
Proof.
  intros Hkey Hinh. unfold checkUserPermissions.
  destruct (truthy (isAdmin user)); [now exists true |].
  destruct (ownerBypass user options); [now exists true |].
  destruct (hasExplicitPermissions user required); [now exists true |].
  unfold hasRolePermissions, rolePermissions. rewrite Hkey. cbn [JS.bind].
  unfold get. rewrite Hinh.
  destruct (negb (truthy (role user))); [now exists false |].
  destruct (assoc key ROLE_PERMISSIONS) as [granted |]; cbn beta iota;
    [destruct (includes granted (VStr "*")); [now exists true |] |];
    cbn [JS.bind];
    match goal with
    | |- context [every ?arr ?p] => destruct (every arr p)
    end; eexists; reflexivity.
Qed.

Definition roleNamedConstructor : User := userWith (VStr "constructor") VUndefined.

(** C8, at the failing input. For a caller whose role is the string
    [constructor] and who has no explicit permissions, the explicit
    step is skipped, and the role step then throws: the table lookup
    finds [Object.prototype.constructor], which has no [includes]. *)
Theorem evaluator_throws_on_inherited_role :
  hasExplicitPermissions roleNamedConstructor [PERMISSIONS.READ_OWN] = false /\
  rolePermissions roleNamedConstructor = Return (Inherited "constructor") /\
  checkUserPermissions roleNamedConstructor [PERMISSIONS.READ_OWN]
                       (plainCheck (requestFor (VStr "7") VUndefined))
  = Throw (TypeError "rolePermissions.includes is not a function").
Proof. repeat split. Qed.

(** ** Empty requirement set *)

Lemma empty_requirement_allowed (user : User) (options : CheckOptions) (r : string) :
  role user = VStr r -> r <> "" -> inherited r = false ->
  checkUserPermissions user [] options = Return true.
Proof.
  intros Hr Hne Hinh. unfold checkUserPermissions.
  destruct (truthy (isAdmin user)); [reflexivity |].
  destruct (ownerBypass user options); [reflexivity |].
  destruct (hasExplicitPermissions user []); [reflexivity |].
  unfold hasRolePermissions, rolePermissions. rewrite Hr.
  apply truthy_VStr in Hne. rewrite Hne. cbn [toString negb JS.bind].
  unfold get. rewrite Hinh.
  destruct (assoc r ROLE_PERMISSIONS) as [granted |]; cbn beta iota;
    [now destruct (includes granted (VStr "*")) | reflexivity].
Qed.

Lemma empty_requirement_denied (user : User) (options : CheckOptions) :
  truthy (role user) = false -> isArray (permissions user) = false ->
  ownerBypass user options = false ->
  checkUserPermissions user [] options = Return false.
Proof.
  intros Hrole Hmal Hown.
  assert (Hadmin : truthy (isAdmin user) = false).
  { unfold isAdmin, and_then. now rewrite Hrole. }
  rewrite (proj2 (malformed_permissions_fall_through user [] options Hmal) Hadmin Hown).
  unfold hasRolePermissions. now rewrite Hrole.
Qed.

Definition roleNamedToString : User := userWith (VStr "toString") VUndefined.

(** C10, at the failing input. The role [toString] is a non-empty
    string, and with nothing required the evaluation throws instead of
    allowing: the explicit step is skipped for want of an array and the
    role lookup finds [Object.prototype.toString]. *)
Theorem empty_requirement_throws_on_inherited_role :
  truthy (role roleNamedToString) = true /\
  assoc "toString" ROLE_PERMISSIONS = None /\
  checkUserPermissions roleNamedToString []
                       (plainCheck (requestFor (VStr "7") VUndefined))
  = Throw (TypeError "rolePermissions.includes is not a function").
Proof. repeat split. Qed.

(** ** Callers the store does not know *)

Section UnknownCaller.

Variable findById : value -> completion (option User).
Variable NODE_ENV : value.

(** The general guard answers 401 both without an identity and for an
    identity the store has no record of. *)
Lemma checkPermission_unauthenticated (required : PermissionInput)
      (options : Options) (req : Request) :
  validateAuthentication req <> None ->
  checkPermission findById NODE_ENV required options req
  = Json 401 [("message", VStr "Authentication required")].
Proof.
  unfold checkPermission, validateAuthentication.
  destruct (userData req) as [data |]; [| reflexivity].
  destruct (negb (truthy (userId data))); [reflexivity |].
  intro H. now contradiction H.
Qed.

Lemma requireAdmin_unauthenticated (req : Request) :
  validateAuthentication req <> None ->
  requireAdmin findById NODE_ENV req
  = Json 401 [("message", VStr "Authentication required")].
Proof.
  unfold requireAdmin, validateAuthentication.
  destruct (userData req) as [data |]; [| reflexivity].
  destruct (negb (truthy (userId data))); [reflexivity |].
  intro H. now contradiction H.
Qed.

Lemma checkPermission_not_found (required : PermissionInput)
      (options : Options) (req : Request) (data : UserData) :
  userData req = Some data -> truthy (userId data) = true ->
  findById (userId data) = Return None ->
  checkPermission findById NODE_ENV required options req
  = Json 401 [("message", VStr "User not found")].
Proof.
  intros Hdata Hid Hnone.
  unfold checkPermission, validateAuthentication, getUserById.
  now rewrite Hdata, Hid, Hnone.
Qed.

(** C9, on the admin-only guard. With an identity present and no
    record in the store, [requireAdmin] answers 403 with the message
    it gives a caller who is not an admin, where the general guard
    answers 401. *)
Theorem requireAdmin_not_found (required : PermissionInput)
        (options : Options) (req : Request) (data : UserData) :
  userData req = Some data -> truthy (userId data) = true ->
  findById (userId data) = Return None ->
  requireAdmin findById NODE_ENV req
  = Json 403 [("message", VStr "Admin access required")] /\
  checkPermission findById NODE_ENV required options req
  = Json 401 [("message", VStr "User not found")].
Proof.
  intros Hdata Hid Hnone. split.
  - unfold requireAdmin. now rewrite Hdata, Hid, Hnone.
  - now apply (checkPermission_not_found required options req data).
Qed.

End UnknownCaller.

Definition emptyStore : value -> completion (option User) := fun _ => Return None.

Lemma requireAdmin_not_found_witness :
  requireAdmin emptyStore (VStr "production") (requestFor (VStr "42") VUndefined)
  = Json 403 [("message", VStr "Admin access required")] /\
  checkPermission emptyStore (VStr "production") (Single PERMISSIONS.READ_OWN) no_options
                  (requestFor (VStr "42") VUndefined)
  = Json 401 [("message", VStr "User not found")].
Proof.
  apply (requireAdmin_not_found emptyStore (VStr "production")
           (Single PERMISSIONS.READ_OWN) no_options
           (requestFor (VStr "42") VUndefined) {| userId := VStr "42" |});
    reflexivity.
Defined.

(** * Further properties of the evaluator *)

(** ** Auxiliary facts *)

Lemma every_incl {A} (a b : list A) (p : A -> bool) :
  incl b a -> every a p = true -> every b p = true.
Proof.
  intros Hincl Ha. rewrite every_spec in *. intros x Hx. apply Ha, Hincl, Hx.
Qed.

Lemma every_same_elements {A} (a b : list A) (p : A -> bool) :
  (forall x, In x a <-> In x b) -> every a p = every b p.
Proof.
  intro Hsame.
  destruct (every a p) eqn:Ea; destruct (every b p) eqn:Eb; try reflexivity.
  - rewrite (every_incl a b p) in Eb; [discriminate | | assumption].
    intros x Hx. now apply Hsame.
  - rewrite (every_incl b a p) in Ea; [discriminate | | assumption].
    intros x Hx. now apply Hsame.
Qed.

Lemma strictEq_VStr_left (s : string) (v : value) :
  strictEq (VStr s) v = true <-> v = VStr s.
Proof.
  destruct v; simpl; split; intro H; try discriminate.
  - apply String.eqb_eq in H. now subst.
  - injection H as ->. apply String.eqb_refl.
Qed.

Lemma isAdmin_exact (user : User) :
  truthy (isAdmin user) = true <->
  role user = VStr "admin" \/ role user = VStr "superadmin".
Proof.
  unfold isAdmin, and_then.
  destruct (truthy (role user)) eqn:Ht.
  - unfold ADMIN_ROLES, strs, includes. cbn [map existsb truthy].
    rewrite !orb_true_iff, !strictEq_VStr_left. intuition discriminate.
  - rewrite Ht. split; [discriminate |].
    intros [H | H]; rewrite H in Ht; discriminate.
Qed.

Lemma inherited_not_own (key : string) :
  inherited key = true -> assoc key ROLE_PERMISSIONS = None.
Proof.
  unfold inherited. rewrite existsb_exists.
  intros (name & Hin & Heq). apply String.eqb_eq in Heq. subst name.
  simpl in Hin.
  repeat (destruct Hin as [<- | Hin]; [reflexivity |]).
  contradiction.
Qed.

(** The key conversion throws only for an array or for an object with
    an own [toString] property, and always the same [TypeError]. *)
Lemma toString_throws (v : value) (e : exn) :
  toString v = Throw e ->
  e = TypeError "Cannot convert object to primitive value" /\
  (isArray v = true \/
   exists fields, v = VObj fields /\ hasOwn fields "toString" = true).
Proof.
  revert v e. fix IH 1. intros v e.
  destruct v as [| | b | z | s | elems | fields]; try discriminate.
  - destruct b; discriminate.
  - intro H. split; [| now left].
    cbn [toString] in H. revert e H.
    induction elems as [| x rest IHrest]; intros e H; [discriminate |].
    cbn [each] in H.
    pose proof (fun failure Hf => proj1 (IH x failure Hf)) as Hx.
    destruct (match x with
              | VUndefined | VNull => Return ""
              | _ => toString x
              end) as [part | failure] eqn:Hpart.
    + cbn [JS.bind] in H. apply IHrest.
      destruct (each _ rest) as [parts | failure]; [discriminate | exact H].
    + cbn [JS.bind] in H. injection H as <-. apply Hx.
      destruct x; try discriminate; exact Hpart.
  - cbn [toString]. destruct (hasOwn fields "toString") eqn:Hown; [| discriminate].
    intro H. injection H as <-. split; [reflexivity |]. right. eauto.
Qed.

(** The role step, by what the key conversion and the lookup give. *)
Lemma hasRolePermissions_cases (user : User) (required : list string) :
  hasRolePermissions user required
  = if negb (truthy (role user)) then Return false
    else
      key <- toString (role user) ;;
      match assoc key ROLE_PERMISSIONS with
      | Some granted =>
          Return (includes granted (VStr "*")
                  || every required (fun p => includes granted (VStr p)))
      | None =>
          if inherited key
          then Throw (TypeError "rolePermissions.includes is not a function")
          else Return (every required (fun p => includes [] (VStr p)))
      end.
Proof.
  unfold hasRolePermissions, rolePermissions.
  destruct (negb (truthy (role user))); [reflexivity |].
  destruct (toString (role user)) as [key | e]; [| reflexivity].
  cbn [JS.bind]. unfold get.
  destruct (assoc key ROLE_PERMISSIONS) as [granted |].
  - now destruct (includes granted (VStr "*")).
  - now destruct (inherited key).
Qed.

Lemma every_nothing_granted (required : list string) :
  every required (fun p => includes [] (VStr p)) = true <-> required = [].
Proof.
  destruct required; simpl; split; intro H; try reflexivity; discriminate.
Qed.

(** The evaluator, by the outcome of its four conditions. *)
Lemma checkUserPermissions_cases (user : User) (required : list string)
      (options : CheckOptions) :
  checkUserPermissions user required options
  = if truthy (isAdmin user) || ownerBypass user options
       || hasExplicitPermissions user required
    then Return true
    else hasRolePermissions user required.
Proof.
  unfold checkUserPermissions.
  destruct (truthy (isAdmin user)); [reflexivity |].
  destruct (ownerBypass user options); [reflexivity |].
  destruct (hasExplicitPermissions user required); [reflexivity |].
  now destruct (hasRolePermissions user required) as [[|] | e].
Qed.

Lemma ownerBypass_true (user : User) (options : CheckOptions) :
  ownerBypass user options = true <->
  allowOwner options = true /\ resource options = VStr "own" /\
  truthy (resourceId (req options)) = true /\
  resourceId (req options) = VStr (hex (_id user)).
Proof.
  unfold ownerBypass.
  rewrite !andb_true_iff, strictEq_VStr, hasResourceOwnership_true. tauto.
Qed.

(** ** When the evaluator allows *)

(** X1. The verdict is allow exactly when one of five things holds: the
    role is the string [admin] or [superadmin]; the ownership option is
    on with resource ["own"] and the target identifier is present and
    is the caller's; the explicit permissions are an array holding
    every required permission; the role is set, converts to a key of
    the table, and the key's array holds the wildcard or every required
    permission; or the role is set, converts to a key that is neither
    in the table nor inherited, and nothing is required. *)
Theorem allowed_iff_justified (user : User) (required : list string)
        (options : CheckOptions) :
  checkUserPermissions user required options = Return true <->
  (role user = VStr "admin" \/ role user = VStr "superadmin") \/
  (allowOwner options = true /\ resource options = VStr "own" /\
   truthy (resourceId (req options)) = true /\
   resourceId (req options) = VStr (hex (_id user))) \/
  (exists granted, permissions user = VArr granted /\
                   forall p, In p required -> In (VStr p) granted) \/
  (truthy (role user) = true /\
   exists key granted,
     toString (role user) = Return key /\
     assoc key ROLE_PERMISSIONS = Some granted /\
     (In (VStr "*") granted \/ forall p, In p required -> In (VStr p) granted)) \/
  (truthy (role user) = true /\
   exists key,
     toString (role user) = Return key /\
     assoc key ROLE_PERMISSIONS = None /\ inherited key = false /\ required = []).
Proof.
  rewrite checkUserPermissions_cases, <- isAdmin_exact, <- ownerBypass_true,
    <- hasExplicitPermissions_array.
  destruct (truthy (isAdmin user)); [cbn [orb]; tauto |].
  destruct (ownerBypass user options); [cbn [orb]; tauto |].
  destruct (hasExplicitPermissions user required); [cbn [orb]; tauto |].
  cbn [orb]. rewrite hasRolePermissions_cases.
  destruct (truthy (role user)); cbn [negb].
  2:{ split; [discriminate |].
      intros [H | [H | [H | [[H _] | [H _]]]]]; discriminate. }
  destruct (toString (role user)) as [key | failure]; cbn [JS.bind].
  2:{ split; [discriminate |].
      intros [H | [H | [H | [[_ (k & g & H & _)] | [_ (k & H & _)]]]]];
        discriminate. }
  destruct (assoc key ROLE_PERMISSIONS) as [granted |] eqn:Hassoc.
  - split.
    + intro H. injection H as H. apply orb_true_iff in H.
      do 3 right. left. split; [reflexivity |]. exists key, granted.
      split; [reflexivity |]. split; [assumption |]. destruct H as [H | H].
      * left. now apply includes_VStr.
      * right. rewrite every_spec in H. intros p Hp. now apply includes_VStr, H.
    + intros [H | [H | [H | [[_ (k & g & Hk & Hg & H)] | [_ (k & Hk & Hg & _)]]]]];
        try discriminate; injection Hk as <-; rewrite Hassoc in Hg;
        [| discriminate].
      injection Hg as <-. f_equal. apply orb_true_iff. destruct H as [H | H].
      * left. now apply includes_VStr.
      * right. apply every_spec. intros p Hp. now apply includes_VStr, H.
  - destruct (inherited key) eqn:Hinh.
    + split; [discriminate |].
      intros [H | [H | [H | [[_ (k & g & Hk & Hg & _)] | [_ (k & Hk & _ & Hi & _)]]]]];
        try discriminate; injection Hk as <-; congruence.
    + split.
      * intro H. injection H as H. apply every_nothing_granted in H.
        do 4 right. split; [reflexivity |]. exists key. auto.
      * intros [H | [H | [H | [[_ (k & g & Hk & Hg & _)] | [_ (k & _ & _ & _ & H)]]]]];
          try discriminate; [injection Hk as <-; congruence |].
        f_equal. now apply every_nothing_granted.
Qed.

(** X2. The evaluator throws exactly when the caller is no admin, gets
    no ownership bypass, fails the explicit step, has a role that is
    set, and either the conversion of the role to a property key
    throws, or the key is a property name of [Object.prototype].  The
    exception is a [TypeError]: "Cannot convert object to primitive
    value" from the conversion, "rolePermissions.includes is not a
    function" from the call to [includes]. *)
Theorem evaluator_throws_iff (user : User) (required : list string)
        (options : CheckOptions) (e : exn) :
  (checkUserPermissions user required options = Throw e <->
   truthy (isAdmin user) = false /\
   ownerBypass user options = false /\
   hasExplicitPermissions user required = false /\
   truthy (role user) = true /\
   (toString (role user) = Throw e \/
    exists key, toString (role user) = Return key /\ inherited key = true /\
                e = TypeError "rolePermissions.includes is not a function")) /\
  (checkUserPermissions user required options = Throw e ->
   e = TypeError "Cannot convert object to primitive value" \/
   e = TypeError "rolePermissions.includes is not a function").
Proof.
  assert (Hiff :
    checkUserPermissions user required options = Throw e <->
    truthy (isAdmin user) = false /\
    ownerBypass user options = false /\
    hasExplicitPermissions user required = false /\
    truthy (role user) = true /\
    (toString (role user) = Throw e \/
     exists key, toString (role user) = Return key /\ inherited key = true /\
                 e = TypeError "rolePermissions.includes is not a function")).
  { rewrite checkUserPermissions_cases.
    destruct (truthy (isAdmin user)); [cbn [orb]; intuition discriminate |].
    destruct (ownerBypass user options); [cbn [orb]; intuition discriminate |].
    destruct (hasExplicitPermissions user required);
      [cbn [orb]; intuition discriminate |].
    cbn [orb]. rewrite hasRolePermissions_cases.
    destruct (truthy (role user)); cbn [negb]; [| intuition discriminate].
    destruct (toString (role user)) as [key | failure]; cbn [JS.bind].
    2:{ split.
        - intro H. injection H as <-. auto 6.
        - intros (_ & _ & _ & _ & [H | (k & H & _)]); [| discriminate].
          injection H as ->. reflexivity. }
    destruct (inherited key) eqn:Hinh.
    - rewrite (inherited_not_own _ Hinh). split.
      + intro H. injection H as <-. repeat split. right. exists key. auto.
      + intros (_ & _ & _ & _ & [H | (k & _ & _ & ->)]); [discriminate | reflexivity].
    - destruct (assoc key ROLE_PERMISSIONS); split; try discriminate;
        intros (_ & _ & _ & _ & [H | (k & Hk & Hi & _)]); try discriminate;
        injection Hk as <-; congruence. }
  split; [exact Hiff |].
  intro H. apply Hiff in H.
  destruct H as (_ & _ & _ & _ & [H | (key & _ & _ & ->)]); [left | now right].
  exact (proj1 (toString_throws _ _ H)).
Qed.

Definition roleObject : User :=
  userWith (VObj [("toString", VStr "admin")]) VUndefined.

Lemma evaluator_throws_iff_witness :
  checkUserPermissions roleObject [PERMISSIONS.READ_OWN]
                       (plainCheck (requestFor (VStr "7") VUndefined))
  = Throw (TypeError "Cannot convert object to primitive value") /\
  (TypeError "Cannot convert object to primitive value"
   = TypeError "Cannot convert object to primitive value" \/
   TypeError "Cannot convert object to primitive value"
   = TypeError "rolePermissions.includes is not a function").
Proof.
  pose proof (evaluator_throws_iff roleObject [PERMISSIONS.READ_OWN]
                (plainCheck (requestFor (VStr "7") VUndefined))
                (TypeError "Cannot convert object to primitive value"))
    as [Hiff Hkind].
  assert (H : checkUserPermissions roleObject [PERMISSIONS.READ_OWN]
                (plainCheck (requestFor (VStr "7") VUndefined))
              = Throw (TypeError "Cannot convert object to primitive value")).
  { apply Hiff. repeat split. left. reflexivity. }
  split; [exact H | exact (Hkind H)].
Defined.

(** ** Requirement sets *)

Lemma hasExplicitPermissions_incl (user : User) (required fewer : list string) :
  incl fewer required ->
  hasExplicitPermissions user required = true ->
  hasExplicitPermissions user fewer = true.
Proof.
  intros Hincl H. apply hasExplicitPermissions_array in H.
  destruct H as (g & Hg & Hall). apply hasExplicitPermissions_array.
  exists g. split; [assumption |]. intros p Hp. apply Hall, Hincl, Hp.
Qed.

Lemma hasRolePermissions_incl (user : User) (required fewer : list string) :
  incl fewer required ->
  hasRolePermissions user required = Return true ->
  hasRolePermissions user fewer = Return true.
Proof.
  intros Hincl. rewrite !hasRolePermissions_cases.
  destruct (negb (truthy (role user))); [trivial |].
  destruct (toString (role user)) as [key | failure]; cbn [JS.bind]; [| trivial].
  destruct (assoc key ROLE_PERMISSIONS) as [granted |].
  - intro H. injection H as H. f_equal. apply orb_true_iff in H.
    apply orb_true_iff. destruct H as [H | H]; [now left | right].
    exact (every_incl _ _ _ Hincl H).
  - destruct (inherited key); [trivial |].
    intro H. injection H as H. f_equal. exact (every_incl _ _ _ Hincl H).
Qed.

(** X3. Requiring less never loses access: if a requirement set is
    allowed, so is every set whose permissions all occur in it. *)
Theorem fewer_requirements_still_allowed (user : User)
        (required fewer : list string) (options : CheckOptions) :
  incl fewer required ->
  checkUserPermissions user required options = Return true ->
  checkUserPermissions user fewer options = Return true.
Proof.
  intros Hincl. rewrite !checkUserPermissions_cases.
  destruct (truthy (isAdmin user)); [trivial |].
  destruct (ownerBypass user options); [trivial |]. simpl.
  destruct (hasExplicitPermissions user required) eqn:Ereq.
  - now rewrite (hasExplicitPermissions_incl user required fewer Hincl Ereq).
  - intro H. destruct (hasExplicitPermissions user fewer); [reflexivity |].
    exact (hasRolePermissions_incl user required fewer Hincl H).
Qed.

Lemma fewer_requirements_still_allowed_witness :
  checkUserPermissions (userWith (VStr "moderator") VUndefined)
                       [PERMISSIONS.UPDATE_PRODUCTS]
                       (plainCheck (requestFor (VStr "7") VUndefined))
  = Return true.
Proof.
  apply (fewer_requirements_still_allowed
           (userWith (VStr "moderator") VUndefined)
           [PERMISSIONS.READ_PRODUCTS; PERMISSIONS.UPDATE_PRODUCTS]
           [PERMISSIONS.UPDATE_PRODUCTS]).
  - intros p [<- | []]. right. now left.
  - reflexivity.
Defined.

(** X4. The outcome depends on the required permissions as a set: two
    lists with the same elements, in any order and with any
    repetitions, give the same verdict or the same exception. *)
Theorem requirement_order_irrelevant (user : User) (a b : list string)
        (options : CheckOptions) :
  (forall p, In p a <-> In p b) ->
  checkUserPermissions user a options = checkUserPermissions user b options.
Proof.
  intro Hsame. rewrite !checkUserPermissions_cases, !hasRolePermissions_cases.
  assert (Hexplicit : hasExplicitPermissions user a = hasExplicitPermissions user b).
  { unfold hasExplicitPermissions.
    destruct (negb (truthy (permissions user)) || negb (isArray (permissions user)));
      [reflexivity |].
    destruct (permissions user); try reflexivity.
    now apply every_same_elements. }
  rewrite Hexplicit.
  rewrite (every_same_elements a b (fun p => includes [] (VStr p)) Hsame).
  destruct (toString (role user)) as [key | failure]; cbn [JS.bind];
    [| reflexivity].
  destruct (assoc key ROLE_PERMISSIONS) as [granted |]; [| reflexivity].
  now rewrite (every_same_elements a b (fun p => includes granted (VStr p)) Hsame).
Qed.

Lemma requirement_order_irrelevant_witness :
  checkUserPermissions (userWith (VStr "manager") VUndefined)
                       [PERMISSIONS.READ_ORDERS; PERMISSIONS.UPDATE_ORDERS]
                       (plainCheck (requestFor (VStr "7") VUndefined))
  = checkUserPermissions (userWith (VStr "manager") VUndefined)
                         [PERMISSIONS.UPDATE_ORDERS; PERMISSIONS.READ_ORDERS;
                          PERMISSIONS.UPDATE_ORDERS]
                         (plainCheck (requestFor (VStr "7") VUndefined)).
Proof.
  apply (requirement_order_irrelevant (userWith (VStr "manager") VUndefined)).
  intro p. simpl. tauto.
Defined.

(** X5. With nothing required the verdict is allow exactly when the
    caller is an admin, or gets the ownership bypass, or has an array
    (even an empty one) as explicit permissions, or has a role that is
    set and converts to a key that is not a property name of
    [Object.prototype]. *)
Theorem empty_requirement_verdict (user : User) (options : CheckOptions) :
  checkUserPermissions user [] options = Return true <->
  truthy (isAdmin user) = true \/
  ownerBypass user options = true \/
  isArray (permissions user) = true \/
  (truthy (role user) = true /\
   exists key, toString (role user) = Return key /\ inherited key = false).
Proof.
  rewrite checkUserPermissions_cases.
  destruct (truthy (isAdmin user)); [cbn [orb]; tauto |].
  destruct (ownerBypass user options); [cbn [orb]; tauto |].
  cbn [orb].
  assert (Hexplicit : hasExplicitPermissions user [] = isArray (permissions user)).
  { unfold hasExplicitPermissions.
    destruct (permissions user); cbn [isArray truthy negb];
      rewrite ?orb_true_r; reflexivity. }
  rewrite Hexplicit.
  destruct (isArray (permissions user)); [tauto |].
  rewrite hasRolePermissions_cases.
  destruct (truthy (role user)); cbn [negb]; [| intuition discriminate].
  destruct (toString (role user)) as [key | failure]; cbn [JS.bind].
  2:{ split; [discriminate |].
      intros [H | [H | [H | [_ (k & H & _)]]]]; discriminate. }
  destruct (inherited key) eqn:Hinh.
  - rewrite (inherited_not_own _ Hinh). split; [discriminate |].
    intros [H | [H | [H | [_ (k & Hk & Hi)]]]]; try discriminate.
    injection Hk as <-. congruence.
  - assert (Hallow : match assoc key ROLE_PERMISSIONS with
                     | Some granted =>
                         Return (includes granted (VStr "*")
                                 || every [] (fun p => includes granted (VStr p)))
                     | None => Return (every [] (fun p => includes [] (VStr p)))
                     end = Return true).
    { destruct (assoc key ROLE_PERMISSIONS) as [granted |]; [| reflexivity].
      now rewrite orb_true_r. }
    rewrite Hallow. split; [| reflexivity]. intros _.
    do 3 right. split; [reflexivity |]. exists key. auto.
Qed.

(** ** Explicit grants *)

(** X6. The wildcard is honoured in the role table only.  An explicit
    permission array holding just ["*"] passes the explicit step only
    for requirement sets made of the literal ["*"], whereas a role
    whose table array is ["*"] passes the role step for every set. *)
Theorem explicit_wildcard_not_honoured (user : User) (required : list string) :
  (permissions user = VArr (strs ["*"]) ->
   (hasExplicitPermissions user required = true <->
    forall p, In p required -> p = "*")) /\
  (rolePermissions user = Return (Own (strs ["*"])) -> truthy (role user) = true ->
   hasRolePermissions user required = Return true).
Proof.
  split.
  - intro Hperm. rewrite hasExplicitPermissions_array. split.
    + intros (g & Hg & Hall) p Hp. rewrite Hperm in Hg. injection Hg as <-.
      destruct (Hall p Hp) as [H | []]. now injection H.
    + intro Hall. exists (strs ["*"]). split; [assumption |].
      intros p Hp. rewrite (Hall p Hp). now left.
  - intros Hrole Htruthy. unfold hasRolePermissions.
    now rewrite Hrole, Htruthy.
Qed.

Lemma explicit_wildcard_not_honoured_witness :
  hasExplicitPermissions (userWith (VStr "admin") (VArr (strs ["*"])))
                         [PERMISSIONS.DELETE_ALL] = false /\
  hasRolePermissions (userWith (VStr "admin") (VArr (strs ["*"])))
                     [PERMISSIONS.DELETE_ALL] = Return true.
Proof.
  pose proof (explicit_wildcard_not_honoured
                (userWith (VStr "admin") (VArr (strs ["*"])))
                [PERMISSIONS.DELETE_ALL]) as [Hexplicit Hrole].
  split.
  - apply not_true_iff_false. intro H.
    apply (proj1 (Hexplicit eq_refl)) with (p := PERMISSIONS.DELETE_ALL) in H;
      [discriminate | now left].
  - apply Hrole; reflexivity.
Defined.

(** The caller with another explicit-permission field. *)
Definition withPermissions (user : User) (p : value) : User :=
  {| _id := _id user; email := email user; role := role user; permissions := p |}.

(** X7. Widening the explicit permissions never loses access: if a
    caller is allowed, the same caller with an explicit array that
    holds at least the former explicit permissions is allowed too. *)
Theorem more_explicit_grants_still_allowed (user : User) (more : list value)
        (required : list string) (options : CheckOptions) :
  (forall granted, permissions user = VArr granted -> incl granted more) ->
  checkUserPermissions user required options = Return true ->
  checkUserPermissions (withPermissions user (VArr more)) required options
  = Return true.
Proof.
  intros Hmore. rewrite !checkUserPermissions_cases.
  change (truthy (isAdmin (withPermissions user (VArr more))))
    with (truthy (isAdmin user)).
  change (ownerBypass (withPermissions user (VArr more)) options)
    with (ownerBypass user options).
  change (hasRolePermissions (withPermissions user (VArr more)) required)
    with (hasRolePermissions user required).
  destruct (truthy (isAdmin user)); [trivial |].
  destruct (ownerBypass user options); [trivial |]. cbn [orb].
  destruct (hasExplicitPermissions user required) eqn:Eold.
  - intros _. apply hasExplicitPermissions_array in Eold.
    destruct Eold as (g & Hg & Hall).
    assert (Hnew : hasExplicitPermissions (withPermissions user (VArr more)) required
                   = true).
    { apply hasExplicitPermissions_array. exists more. split; [reflexivity |].
      intros p Hp. apply (Hmore g Hg), Hall, Hp. }
    now rewrite Hnew.
  - intro H.
    now destruct (hasExplicitPermissions (withPermissions user (VArr more)) required).
Qed.

Lemma more_explicit_grants_still_allowed_witness :
  checkUserPermissions
    (withPermissions (userWith (VStr "user") (VArr (strs [PERMISSIONS.READ_ORDERS])))
                     (VArr (strs [PERMISSIONS.CREATE_ORDERS; PERMISSIONS.READ_ORDERS])))
    [PERMISSIONS.READ_ORDERS]
    (plainCheck (requestFor (VStr "7") VUndefined))
  = Return true.
Proof.
  apply (more_explicit_grants_still_allowed
           (userWith (VStr "user") (VArr (strs [PERMISSIONS.READ_ORDERS])))).
  - intros granted Hg. injection Hg as <-. intros p [<- | []]. right. now left.
  - reflexivity.
Defined.

(** ** The role table *)

(** X8. A caller with role [manager] is allowed when [read:orders] and
    [update:orders] are required, whatever the explicit permissions and
    the options. *)
Theorem manager_orders_allowed (user : User) (options : CheckOptions) :
  role user = VStr "manager" ->
  checkUserPermissions user [PERMISSIONS.READ_ORDERS; PERMISSIONS.UPDATE_ORDERS] options
  = Return true.
Proof.
  intro Hrole. rewrite checkUserPermissions_cases.
  assert (Hstep : hasRolePermissions user
                    [PERMISSIONS.READ_ORDERS; PERMISSIONS.UPDATE_ORDERS]
                  = Return true).
  { unfold hasRolePermissions, rolePermissions. rewrite Hrole. reflexivity. }
  rewrite Hstep. now destruct (_ || _ || _).
Qed.

Lemma manager_orders_allowed_witness :
  checkUserPermissions (userWith (VStr "manager") VNull)
                       [PERMISSIONS.READ_ORDERS; PERMISSIONS.UPDATE_ORDERS]
                       (ownCheck (requestFor (VStr "7") (VStr "8")))
  = Return true.
Proof.
  apply (manager_orders_allowed (userWith (VStr "manager") VNull)). reflexivity.
Defined.

(** X9. The table is not a ladder.  Whatever the role step grants a
    [user] it grants a [moderator]; but a [manager] does not pass the
    role step for [read:own], which a [user] passes. *)
Theorem moderator_covers_user_manager_does_not
        (user moderator manager : User) (required : list string) :
  role user = VStr "user" -> role moderator = VStr "moderator" ->
  role manager = VStr "manager" ->
  (hasRolePermissions user required = Return true ->
   hasRolePermissions moderator required = Return true) /\
  hasRolePermissions user [PERMISSIONS.READ_OWN] = Return true /\
  hasRolePermissions manager [PERMISSIONS.READ_OWN] = Return false.
Proof.
  intros Hu Hm Hg. split; [| split].
  - assert (Hlu : rolePermissions user
                  = Return (Own (strs [PERMISSIONS.READ_OWN; PERMISSIONS.UPDATE_OWN]))).
    { unfold rolePermissions. rewrite Hu. reflexivity. }
    assert (Hlm : rolePermissions moderator
                  = Return (Own (strs [PERMISSIONS.READ_OWN; PERMISSIONS.UPDATE_OWN;
                                       PERMISSIONS.READ_PRODUCTS;
                                       PERMISSIONS.CREATE_PRODUCTS;
                                       PERMISSIONS.UPDATE_PRODUCTS]))).
    { unfold rolePermissions. rewrite Hm. reflexivity. }
    rewrite (hasRolePermissions_own user required _ Hlu),
            (hasRolePermissions_own moderator required _ Hlm);
      try (apply includes_VStr_false; reflexivity).
    rewrite Hu, Hm.
    change (truthy (VStr "user")) with true.
    change (truthy (VStr "moderator")) with true.
    cbn [andb].
    destruct (every required
                (fun p => includes (strs [PERMISSIONS.READ_OWN; PERMISSIONS.UPDATE_OWN])
                                   (VStr p))) eqn:E; [intros _ | discriminate].
    f_equal. apply every_spec. intros p Hp.
    pose proof (proj1 (every_spec _ _) E p Hp) as H. cbv beta in H.
    apply includes_VStr in H. apply includes_VStr.
    destruct H as [H | [H | []]]; rewrite <- H; [left | right; left]; reflexivity.
  - unfold hasRolePermissions, rolePermissions. rewrite Hu. reflexivity.
  - unfold hasRolePermissions, rolePermissions. rewrite Hg. reflexivity.
Qed.

Lemma moderator_covers_user_manager_does_not_witness :
  hasRolePermissions (userWith (VStr "moderator") VUndefined)
                     [PERMISSIONS.UPDATE_OWN; PERMISSIONS.READ_OWN]
  = Return true.
Proof.
  apply (moderator_covers_user_manager_does_not
           (userWith (VStr "user") VUndefined)
           (userWith (VStr "moderator") VUndefined)
           (userWith (VStr "manager") VUndefined)
           [PERMISSIONS.UPDATE_OWN; PERMISSIONS.READ_OWN]);
    reflexivity.
Defined.

(** ** The ownership resolver *)

(** X10. [req.params.userId] takes precedence over [req.params.id]:
    when it is truthy the resolver compares it alone with the caller's
    identifier, and only when it is falsy does [req.params.id] count. *)
Theorem userId_param_takes_precedence (user : User) (r : Request) :
  (truthy (params_userId (params r)) = true ->
   (truthy (hasResourceOwnership user r) = true <->
    params_userId (params r) = VStr (hex (_id user)))) /\
  (truthy (params_userId (params r)) = false ->
   (truthy (hasResourceOwnership user r) = true <->
    truthy (params_id (params r)) = true /\
    params_id (params r) = VStr (hex (_id user)))).
Proof.
  rewrite hasResourceOwnership_true. unfold resourceId, or_else.
  split; intro Ht; rewrite Ht; [| tauto].
  split; [tauto |]. intro H. split; [assumption |]. exact H.
Qed.

Lemma userId_param_takes_precedence_witness :
  truthy (hasResourceOwnership
            (userWith (VStr "user") VUndefined)
            {| userData := None;
               params := {| params_userId := VStr "someone-else";
                            params_id := VStr (hex sampleId) |};
               req_permissions := None |}) = false.
Proof.
  apply not_true_iff_false. intro H.
  apply (proj1 (userId_param_takes_precedence
                  (userWith (VStr "user") VUndefined)
                  {| userData := None;
                     params := {| params_userId := VStr "someone-else";
                                  params_id := VStr (hex sampleId) |};
                     req_permissions := None |})) in H;
    [discriminate | reflexivity].
Defined.

(** * Properties of the guards *)

(** The options object [checkPermission] hands to the evaluator: the
    factory's options with their defaults, and the request. *)
Definition checkOptionsOf (options : Options) (r : Request) : CheckOptions :=
  {| resource := match opt_resource options with
                 | VUndefined => VNull
                 | given => given
                 end;
     allowOwner := match opt_allowOwner options with
                   | None => false
                   | Some given => given
                   end;
     req := r |}.

Definition storeOf (user : User) : value -> completion (option User) :=
  fun _ => Return (Some user).

Definition failingStore : value -> completion (option User) :=
  fun _ => Throw (Error "connection lost").

Section GuardOutcomes.

Variable findById : value -> completion (option User).
Variable NODE_ENV : value.

(** The general guard once the identity is there and the store has
    resolved the caller. *)
Lemma checkPermission_resolved (required : PermissionInput) (options : Options)
      (r : Request) (data : UserData) (user : User) :
  userData r = Some data -> truthy (userId data) = true ->
  findById (userId data) = Return (Some user) ->
  checkPermission findById NODE_ENV required options r
  = match checkUserPermissions user (normalizePermissions required)
                               (checkOptionsOf options r) with
    | Return true =>
        Next (Some (attachPermissionContext user (normalizePermissions required)
                                            (resource (checkOptionsOf options r))))
    | Return false =>
        Json 403 [("message", VStr "Insufficient permissions");
                  ("required", VArr (strs (normalizePermissions required)));
                  ("resource", or_else (resource (checkOptionsOf options r))
                                       (VStr "general"))]
    | Throw e => internalError NODE_ENV e
    end.
Proof.
  intros Hdata Hid Hfound.
  unfold checkPermission, validateAuthentication, getUserById, checkOptionsOf.
  rewrite Hdata, Hid, Hfound. cbn [negb JS.bind resource].
  now destruct (checkUserPermissions _ _ _) as [[|] | e].
Qed.

Lemma checkPermission_store_failure (required : PermissionInput) (options : Options)
      (r : Request) (data : UserData) (e : exn) :
  userData r = Some data -> truthy (userId data) = true ->
  findById (userId data) = Throw e ->
  checkPermission findById NODE_ENV required options r
  = internalError NODE_ENV (Error ("Failed to fetch user: " ++ message e)).
Proof.
  intros Hdata Hid Hfail.
  unfold checkPermission, validateAuthentication, getUserById.
  now rewrite Hdata, Hid, Hfail.
Qed.

(** The identity of a request, when it has one. *)
Lemma identity_cases (r : Request) :
  validateAuthentication r <> None \/
  exists data, userData r = Some data /\ truthy (userId data) = true.
Proof.
  unfold validateAuthentication.
  destruct (userData r) as [data |]; [| left; discriminate].
  destruct (truthy (userId data)) eqn:Hid; [right; eauto | left; discriminate].
Qed.

(** X11. The general guard hands the request on exactly when the
    identity is present, the store resolves it to a caller, and the
    evaluator allows the normalized requirement under the guard's
    options; the context attached then names that caller, the
    requirement as given and the resource label. *)
Theorem guard_proceeds_iff (required : PermissionInput) (options : Options)
        (r : Request) (attached : option GrantContext) :
  checkPermission findById NODE_ENV required options r = Next attached <->
  exists data user,
    userData r = Some data /\ truthy (userId data) = true /\
    findById (userId data) = Return (Some user) /\
    checkUserPermissions user (normalizePermissions required)
                         (checkOptionsOf options r) = Return true /\
    attached = Some (attachPermissionContext user (normalizePermissions required)
                                             (resource (checkOptionsOf options r))).
Proof.
  split.
  - destruct (identity_cases r) as [Hno | (data & Hdata & Hid)].
    { rewrite (checkPermission_unauthenticated findById NODE_ENV required options r Hno).
      discriminate. }
    destruct (findById (userId data)) as [[user |] | e] eqn:Hstore.
    + rewrite (checkPermission_resolved required options r data user Hdata Hid Hstore).
      destruct (checkUserPermissions _ _ _) as [[|] | e] eqn:Hverdict;
        try discriminate.
      intro H. injection H as <-. exists data, user. auto.
    + rewrite (checkPermission_not_found findById NODE_ENV required options r data
                 Hdata Hid Hstore).
      discriminate.
    + rewrite (checkPermission_store_failure required options r data e Hdata Hid Hstore).
      discriminate.
  - intros (data & user & Hdata & Hid & Hstore & Hverdict & ->).
    rewrite (checkPermission_resolved required options r data user Hdata Hid Hstore).
    now rewrite Hverdict.
Qed.

(** X12. The general guard answers 403 exactly when the identity is
    present, the store resolves it, and the evaluator denies; the body
    then carries the normalized requirement and the resource label,
    which is ["general"] when no truthy label was configured. *)
Theorem guard_denies_iff (required : PermissionInput) (options : Options)
        (r : Request) (body : list (string * value)) :
  checkPermission findById NODE_ENV required options r = Json 403 body <->
  exists data user,
    userData r = Some data /\ truthy (userId data) = true /\
    findById (userId data) = Return (Some user) /\
    checkUserPermissions user (normalizePermissions required)
                         (checkOptionsOf options r) = Return false /\
    body = [("message", VStr "Insufficient permissions");
            ("required", VArr (strs (normalizePermissions required)));
            ("resource", or_else (resource (checkOptionsOf options r))
                                 (VStr "general"))].
Proof.
  split.
  - destruct (identity_cases r) as [Hno | (data & Hdata & Hid)].
    { rewrite (checkPermission_unauthenticated findById NODE_ENV required options r Hno).
      discriminate. }
    destruct (findById (userId data)) as [[user |] | e] eqn:Hstore.
    + rewrite (checkPermission_resolved required options r data user Hdata Hid Hstore).
      destruct (checkUserPermissions _ _ _) as [[|] | e] eqn:Hverdict;
        try discriminate.
      intro H. injection H as <-. exists data, user. auto.
    + rewrite (checkPermission_not_found findById NODE_ENV required options r data
                 Hdata Hid Hstore).
      discriminate.
    + rewrite (checkPermission_store_failure required options r data e Hdata Hid Hstore).
      discriminate.
  - intros (data & user & Hdata & Hid & Hstore & Hverdict & ->).
    rewrite (checkPermission_resolved required options r data user Hdata Hid Hstore).
    now rewrite Hverdict.
Qed.

(** X13. The general guard answers 500 exactly when, with the identity
    present, the store lookup fails (the error is then wrapped as
    "Failed to fetch user: ...") or the evaluator throws for the
    resolved caller. *)
Theorem guard_fails_iff (required : PermissionInput) (options : Options)
        (r : Request) (body : list (string * value)) :
  checkPermission findById NODE_ENV required options r = Json 500 body <->
  exists data e,
    userData r = Some data /\ truthy (userId data) = true /\
    ((exists cause, findById (userId data) = Throw cause /\
                    e = Error ("Failed to fetch user: " ++ message cause)) \/
     (exists user, findById (userId data) = Return (Some user) /\
                   checkUserPermissions user (normalizePermissions required)
                                        (checkOptionsOf options r) = Throw e)) /\
    Json 500 body = internalError NODE_ENV e.
Proof.
  split.
  - destruct (identity_cases r) as [Hno | (data & Hdata & Hid)].
    { rewrite (checkPermission_unauthenticated findById NODE_ENV required options r Hno).
      discriminate. }
    destruct (findById (userId data)) as [[user |] | cause] eqn:Hstore.
    + rewrite (checkPermission_resolved required options r data user Hdata Hid Hstore).
      destruct (checkUserPermissions _ _ _) as [[|] | e] eqn:Hverdict;
        try discriminate.
      intro H. exists data, e. rewrite H. eauto 8.
    + rewrite (checkPermission_not_found findById NODE_ENV required options r data
                 Hdata Hid Hstore).
      discriminate.
    + rewrite (checkPermission_store_failure required options r data cause
                 Hdata Hid Hstore).
      intro H. exists data, (Error ("Failed to fetch user: " ++ message cause)).
      rewrite H. eauto 8.
  - intros (data & e & Hdata & Hid & [(cause & Hstore & ->) | (user & Hstore & Hthrow)]
            & Hbody).
    + now rewrite (checkPermission_store_failure required options r data cause
                     Hdata Hid Hstore).
    + rewrite (checkPermission_resolved required options r data user Hdata Hid Hstore).
      now rewrite Hthrow.
Qed.

End GuardOutcomes.

Section GuardBehaviour.

Variable findById : value -> completion (option User).
Variable NODE_ENV : value.

(** X14. A request without [userData], or whose [userData.userId] is
    falsy (undefined, null, the empty string, 0, false), is answered
    401 "Authentication required" by both guards, whatever the store
    would have returned and whatever the guard requires. *)
Theorem missing_identity_rejected (required : PermissionInput) (options : Options)
        (r : Request) :
  userData r = None \/
  (exists data, userData r = Some data /\ truthy (userId data) = false) ->
  checkPermission findById NODE_ENV required options r
  = Json 401 [("message", VStr "Authentication required")] /\
  requireAdmin findById NODE_ENV r
  = Json 401 [("message", VStr "Authentication required")].
Proof.
  intro Hmissing.
  assert (Hno : validateAuthentication r <> None).
  { unfold validateAuthentication.
    destruct Hmissing as [-> | (data & -> & ->)]; discriminate. }
  split.
  - now apply checkPermission_unauthenticated.
  - now apply requireAdmin_unauthenticated.
Qed.

Lemma internalError_masked (e : exn) :
  NODE_ENV <> VStr "development" ->
  internalError NODE_ENV e
  = Json 500 [("message", VStr "Permission check failed");
              ("error", VStr "Internal server error")].
Proof.
  intro Henv. unfold internalError.
  destruct (strictEq NODE_ENV (VStr "development")) eqn:E; [| reflexivity].
  apply strictEq_VStr in E. contradiction.
Qed.

Lemma requireAdmin_resolved (r : Request) (data : UserData) (found : option User) :
  userData r = Some data -> truthy (userId data) = true ->
  findById (userId data) = Return found ->
  requireAdmin findById NODE_ENV r
  = if match found with
       | None => true
       | Some user => negb (truthy (isAdmin user))
       end
    then Json 403 [("message", VStr "Admin access required")]
    else Next (req_permissions r).
Proof.
  intros Hdata Hid Hstore. unfold requireAdmin.
  now rewrite Hdata, Hid, Hstore.
Qed.

Lemma requireAdmin_store_failure (r : Request) (data : UserData) (e : exn) :
  userData r = Some data -> truthy (userId data) = true ->
  findById (userId data) = Throw e ->
  requireAdmin findById NODE_ENV r = internalError NODE_ENV e.
Proof.
  intros Hdata Hid Hstore. unfold requireAdmin.
  now rewrite Hdata, Hid, Hstore.
Qed.

Lemma internal_error_body (required : PermissionInput) (options : Options)
        (r : Request) (body : list (string * value)) :
  NODE_ENV <> VStr "development" ->
  checkPermission findById NODE_ENV required options r = Json 500 body \/
  requireAdmin findById NODE_ENV r = Json 500 body ->
  body = [("message", VStr "Permission check failed");
          ("error", VStr "Internal server error")].
Proof.
  intros Henv.
  destruct (identity_cases r) as [Hno | (data & Hdata & Hid)].
  { rewrite (checkPermission_unauthenticated findById NODE_ENV required options r Hno),
            (requireAdmin_unauthenticated findById NODE_ENV r Hno).
    intros [H | H]; discriminate. }
  destruct (findById (userId data)) as [found | cause] eqn:Hstore.
  - rewrite (requireAdmin_resolved r data found Hdata Hid Hstore).
    destruct found as [user |].
    + rewrite (checkPermission_resolved findById NODE_ENV required options r data user
                 Hdata Hid Hstore).
      destruct (checkUserPermissions _ _ _) as [[|] | e];
        destruct (negb (truthy (isAdmin user)));
        intros [H | H]; try discriminate.
      all: rewrite (internalError_masked e Henv) in H; now injection H.
    + rewrite (checkPermission_not_found findById NODE_ENV required options r data
                 Hdata Hid Hstore).
      intros [H | H]; discriminate.
  - rewrite (checkPermission_store_failure findById NODE_ENV required options r data
               cause Hdata Hid Hstore),
            (requireAdmin_store_failure r data cause Hdata Hid Hstore),
            !internalError_masked by assumption.
    intros [H | H]; now injection H.
Qed.

(** X15. Unless [NODE_ENV] is the string ["development"], a 500 answer
    of either guard is the fixed one with "Internal server error": no
    message of the underlying failure gets out. *)
Theorem internal_error_detail_masked (required : PermissionInput) (options : Options)
        (r : Request) :
  NODE_ENV <> VStr "development" ->
  ((exists body, checkPermission findById NODE_ENV required options r = Json 500 body) ->
   checkPermission findById NODE_ENV required options r
   = Json 500 [("message", VStr "Permission check failed");
               ("error", VStr "Internal server error")]) /\
  ((exists body, requireAdmin findById NODE_ENV r = Json 500 body) ->
   requireAdmin findById NODE_ENV r
   = Json 500 [("message", VStr "Permission check failed");
               ("error", VStr "Internal server error")]).
Proof.
  intro Henv. split; intros (body & H); rewrite H; f_equal;
    apply (internal_error_body required options r body Henv); auto.
Qed.

(** X16. When the store lookup fails and [NODE_ENV] is ["development"],
    both guards answer 500 and show the cause: the general guard with
    the prefix "Failed to fetch user: ", the admin guard as it is. *)
Theorem store_failure_reported (required : PermissionInput) (options : Options)
        (r : Request) (data : UserData) (cause : exn) :
  NODE_ENV = VStr "development" ->
  userData r = Some data -> truthy (userId data) = true ->
  findById (userId data) = Throw cause ->
  checkPermission findById NODE_ENV required options r
  = Json 500 [("message", VStr "Permission check failed");
              ("error", VStr ("Failed to fetch user: " ++ message cause))] /\
  requireAdmin findById NODE_ENV r
  = Json 500 [("message", VStr "Permission check failed");
              ("error", VStr (message cause))].
Proof.
  intros Henv Hdata Hid Hstore.
  rewrite (checkPermission_store_failure findById NODE_ENV required options r data
             cause Hdata Hid Hstore),
          (requireAdmin_store_failure r data cause Hdata Hid Hstore).
  unfold internalError. rewrite Henv. split; reflexivity.
Qed.

(** X17. The admin guard hands the request on exactly when the identity
    is present and the store resolves it to a caller whose role is the
    string [admin] or [superadmin]; it leaves [req.permissions] as it
    found it. *)
Theorem requireAdmin_proceeds_iff (r : Request) (attached : option GrantContext) :
  requireAdmin findById NODE_ENV r = Next attached <->
  exists data user,
    userData r = Some data /\ truthy (userId data) = true /\
    findById (userId data) = Return (Some user) /\
    (role user = VStr "admin" \/ role user = VStr "superadmin") /\
    attached = req_permissions r.
Proof.
  split.
  - destruct (identity_cases r) as [Hno | (data & Hdata & Hid)].
    { rewrite (requireAdmin_unauthenticated findById NODE_ENV r Hno). discriminate. }
    destruct (findById (userId data)) as [[user |] | cause] eqn:Hstore.
    + rewrite (requireAdmin_resolved r data _ Hdata Hid Hstore).
      destruct (truthy (isAdmin user)) eqn:Hadmin; [| discriminate].
      cbn [negb]. intro H. injection H as <-.
      apply isAdmin_exact in Hadmin. exists data, user. auto.
    + rewrite (requireAdmin_resolved r data _ Hdata Hid Hstore). discriminate.
    + rewrite (requireAdmin_store_failure r data cause Hdata Hid Hstore). discriminate.
  - intros (data & user & Hdata & Hid & Hstore & Hrole & ->).
    rewrite (requireAdmin_resolved r data _ Hdata Hid Hstore).
    apply isAdmin_exact in Hrole. now rewrite Hrole.
Qed.

(** X18. Whoever passes the admin guard passes every permission guard:
    if [requireAdmin] hands a request on, so does [checkPermission] for
    any requirement and options, attaching a context. *)
Theorem admin_guard_implies_permission_guard (required : PermissionInput)
        (options : Options) (r : Request) (attached : option GrantContext) :
  requireAdmin findById NODE_ENV r = Next attached ->
  exists context,
    checkPermission findById NODE_ENV required options r = Next (Some context) /\
    granted context = normalizePermissions required.
Proof.
  destruct (identity_cases r) as [Hno | (data & Hdata & Hid)].
  { rewrite (requireAdmin_unauthenticated findById NODE_ENV r Hno). discriminate. }
  destruct (findById (userId data)) as [[user |] | cause] eqn:Hstore.
  - rewrite (requireAdmin_resolved r data _ Hdata Hid Hstore).
    destruct (truthy (isAdmin user)) eqn:Hadmin; [| discriminate].
    intros _.
    rewrite (checkPermission_resolved findById NODE_ENV required options r data user
               Hdata Hid Hstore).
    unfold checkUserPermissions. rewrite Hadmin. eexists. split; reflexivity.
  - rewrite (requireAdmin_resolved r data _ Hdata Hid Hstore). discriminate.
  - rewrite (requireAdmin_store_failure r data cause Hdata Hid Hstore). discriminate.
Qed.

(** X19. Route parameters reach the decision only through the ownership
    option: unless the guard was built with [allowOwner: true] and
    [resource: "own"], two requests with the same [userData] get the
    same answer whatever their [params]. *)
Theorem params_matter_only_for_owner_guards (required : PermissionInput)
        (options : Options) (r r' : Request) :
  opt_allowOwner options <> Some true \/ opt_resource options <> VStr "own" ->
  userData r = userData r' ->
  checkPermission findById NODE_ENV required options r
  = checkPermission findById NODE_ENV required options r'.
Proof.
  intros Hgate Hsame.
  assert (Hverdict : forall user,
             checkUserPermissions user (normalizePermissions required)
                                  (checkOptionsOf options r)
             = checkUserPermissions user (normalizePermissions required)
                                    (checkOptionsOf options r')).
  { intro user. rewrite !checkUserPermissions_cases.
    assert (Hoff : forall q, ownerBypass user (checkOptionsOf options q) = false).
    { intro q. unfold ownerBypass, checkOptionsOf. cbn [allowOwner resource].
      destruct (opt_allowOwner options) as [[|] |]; try reflexivity.
      destruct Hgate as [H | H]; [now contradiction H |].
      destruct (opt_resource options) eqn:Hres; try reflexivity.
      cbn [andb strictEq].
      destruct (String.eqb s "own") eqn:E; [| reflexivity].
      apply String.eqb_eq in E. subst s. now contradiction H. }
    now rewrite !Hoff. }
  destruct (identity_cases r) as [Hno | (data & Hdata & Hid)].
  - assert (Hno' : validateAuthentication r' <> None).
    { unfold validateAuthentication in *. now rewrite <- Hsame. }
    now rewrite !checkPermission_unauthenticated.
  - assert (Hdata' : userData r' = Some data) by now rewrite <- Hsame.
    destruct (findById (userId data)) as [[user |] | cause] eqn:Hstore.
    + rewrite (checkPermission_resolved findById NODE_ENV required options r data user
                 Hdata Hid Hstore),
              (checkPermission_resolved findById NODE_ENV required options r' data user
                 Hdata' Hid Hstore).
      now rewrite Hverdict.
    + now rewrite (checkPermission_not_found findById NODE_ENV required options r data
                     Hdata Hid Hstore),
                  (checkPermission_not_found findById NODE_ENV required options r' data
                     Hdata' Hid Hstore).
    + now rewrite (checkPermission_store_failure findById NODE_ENV required options r
                     data cause Hdata Hid Hstore),
                  (checkPermission_store_failure findById NODE_ENV required options r'
                     data cause Hdata' Hid Hstore).
Qed.

(** X20. A guard built by [requireOwnershipOrPermissions] hands on every
    request whose target identifier is present and is the resolved
    caller's own, whatever it requires and whatever the caller's role
    and permissions; the context is labelled ["own"]. *)
Theorem owner_guard_lets_owner_through (required : PermissionInput)
        (r : Request) (data : UserData) (user : User) :
  userData r = Some data -> truthy (userId data) = true ->
  findById (userId data) = Return (Some user) ->
  truthy (resourceId r) = true ->
  resourceId r = VStr (hex (_id user)) ->
  requireOwnershipOrPermissions findById NODE_ENV required r
  = Next (Some (attachPermissionContext user (normalizePermissions required)
                                        (VStr "own"))).
Proof.
  intros Hdata Hid Hstore Hpresent Hsame.
  unfold requireOwnershipOrPermissions.
  rewrite (checkPermission_resolved findById NODE_ENV required _ r data user
             Hdata Hid Hstore).
  rewrite checkUserPermissions_cases.
  assert (Hown : ownerBypass user
                   (checkOptionsOf {| opt_resource := VStr "own";
                                      opt_allowOwner := Some true |} r) = true).
  { apply ownerBypass_true. auto. }
  rewrite Hown, orb_true_r. reflexivity.
Qed.

End GuardBehaviour.

(** ** The guards on sample requests *)

Definition anonymousRequest : Request :=
  {| userData := None;
     params := {| params_userId := VStr (hex sampleId); params_id := VUndefined |};
     req_permissions := None |}.

Lemma missing_identity_rejected_witness :
  checkPermission (storeOf (userWith (VStr "admin") VUndefined)) (VStr "production")
                  (Single PERMISSIONS.READ_OWN) no_options anonymousRequest
  = Json 401 [("message", VStr "Authentication required")] /\
  requireAdmin (storeOf (userWith (VStr "admin") VUndefined)) (VStr "production")
               (requestFor (VStr "") VUndefined)
  = Json 401 [("message", VStr "Authentication required")].
Proof.
  split.
  - apply (missing_identity_rejected
             (storeOf (userWith (VStr "admin") VUndefined)) (VStr "production")
             (Single PERMISSIONS.READ_OWN) no_options anonymousRequest).
    left. reflexivity.
  - apply (missing_identity_rejected
             (storeOf (userWith (VStr "admin") VUndefined)) (VStr "production")
             (Single PERMISSIONS.READ_OWN) no_options
             (requestFor (VStr "") VUndefined)).
    right. exists {| userId := VStr "" |}. split; reflexivity.
Defined.

Lemma internal_error_detail_masked_witness :
  checkPermission failingStore (VStr "production") (Single PERMISSIONS.READ_OWN)
                  no_options (requestFor (VStr "42") VUndefined)
  = Json 500 [("message", VStr "Permission check failed");
              ("error", VStr "Internal server error")] /\
  requireAdmin failingStore (VStr "production") (requestFor (VStr "42") VUndefined)
  = Json 500 [("message", VStr "Permission check failed");
              ("error", VStr "Internal server error")].
Proof.
  pose proof (internal_error_detail_masked failingStore (VStr "production")
                (Single PERMISSIONS.READ_OWN) no_options
                (requestFor (VStr "42") VUndefined)) as H.
  destruct H as [Hgeneral Hadmin]; [discriminate |].
  split; [apply Hgeneral | apply Hadmin]; eexists; reflexivity.
Defined.

Lemma store_failure_reported_witness :
  checkPermission failingStore (VStr "development") (Single PERMISSIONS.READ_OWN)
                  no_options (requestFor (VStr "42") VUndefined)
  = Json 500 [("message", VStr "Permission check failed");
              ("error", VStr "Failed to fetch user: connection lost")] /\
  requireAdmin failingStore (VStr "development") (requestFor (VStr "42") VUndefined)
  = Json 500 [("message", VStr "Permission check failed");
              ("error", VStr "connection lost")].
Proof.
  apply (store_failure_reported failingStore (VStr "development")
           (Single PERMISSIONS.READ_OWN) no_options
           (requestFor (VStr "42") VUndefined) {| userId := VStr "42" |}
           (Error "connection lost"));
    reflexivity.
Defined.

Lemma admin_guard_implies_permission_guard_witness :
  exists context,
    checkPermission (storeOf (userWith (VStr "superadmin") VUndefined))
                    (VStr "production")
                    (Several [PERMISSIONS.DELETE_ALL; PERMISSIONS.ASSIGN_ROLES])
                    no_options (requestFor (VStr "42") VUndefined)
    = Next (Some context) /\
    granted context = [PERMISSIONS.DELETE_ALL; PERMISSIONS.ASSIGN_ROLES].
Proof.
  apply (admin_guard_implies_permission_guard
           (storeOf (userWith (VStr "superadmin") VUndefined)) (VStr "production")
           (Several [PERMISSIONS.DELETE_ALL; PERMISSIONS.ASSIGN_ROLES])
           no_options (requestFor (VStr "42") VUndefined) None).
  reflexivity.
Defined.

Lemma params_matter_only_for_owner_guards_witness :
  checkPermission (storeOf (userWith (VStr "user") VUndefined)) (VStr "production")
                  (Single PERMISSIONS.DELETE_OWN)
                  {| opt_resource := VStr "own"; opt_allowOwner := None |}
                  (requestFor (VStr "42") (VStr (hex sampleId)))
  = checkPermission (storeOf (userWith (VStr "user") VUndefined)) (VStr "production")
                    (Single PERMISSIONS.DELETE_OWN)
                    {| opt_resource := VStr "own"; opt_allowOwner := None |}
                    (requestFor (VStr "42") (VStr "someone-else")).
Proof.
  apply (params_matter_only_for_owner_guards
           (storeOf (userWith (VStr "user") VUndefined)) (VStr "production")).
  - left. discriminate.
  - reflexivity.
Defined.

Lemma owner_guard_lets_owner_through_witness :
  requireOwnershipOrPermissions
    (storeOf (userWith VUndefined VUndefined)) (VStr "production")
    (Single PERMISSIONS.DELETE_ALL)
    (requestFor (VStr "42") (VStr (hex sampleId)))
  = Next (Some (attachPermissionContext (userWith VUndefined VUndefined)
                                        [PERMISSIONS.DELETE_ALL] (VStr "own"))).
Proof.
  apply (owner_guard_lets_owner_through
           (storeOf (userWith VUndefined VUndefined)) (VStr "production")
           (Single PERMISSIONS.DELETE_ALL)
           (requestFor (VStr "42") (VStr (hex sampleId)))
           {| userId := VStr "42" |} (userWith VUndefined VUndefined));
    reflexivity.
Defined.
